(** * Geofence MVP: location updates, containment and alert dispatch

    A shallow embedding of the backend's request handlers ([main.py]),
    persistence layer ([crud.py]), background job ([celery_app.py]) and push
    sender ([notifications.py]).

    Python floats are embedded as real numbers (exact arithmetic).  MySQL,
    the Redis broker and the push provider are external services: their
    state is threaded explicitly and their failures are chosen by an
    environment of oracles. *)

From Stdlib Require Import Reals Lra List String ZArith Bool Lia.
From Stdlib Require Import DecimalString Sorted Permutation.
Import ListNotations.

Local Open Scope string_scope.

(** ** Exceptions and results *)

Inductive exn : Type :=
| HTTPException (status_code : Z) (detail : string)
| OperationalError
| ValueError.

Inductive result (A : Type) : Type :=
| Ok (a : A)
| Raise (e : exn).

Arguments Ok {A} a.
Arguments Raise {A} e.

Definition bind_result {A B : Type} (r : result A) (k : A -> result B) : result B :=
  match r with
  | Ok a => k a
  | Raise e => Raise e
  end.

(** ** Geo math ([main.py], [haversine_distance_m]) *)

Module Geo.
Local Open Scope R_scope.

(** [x <= y] on floats, as a boolean. *)
Definition Rleb (x y : R) : bool := if Rle_dec x y then true else false.

(** [math.radians] *)
Definition radians (x : R) : R := x * (PI / 180).

(** [math.sqrt]: a negative argument is a math domain error. *)
Definition math_sqrt (x : R) : result R :=
  if Rlt_dec x 0 then Raise ValueError else Ok (sqrt x).

(** [math.atan2 y x]: the angle of the point [(x, y)], in (-PI, PI]. *)
Definition atan2 (y x : R) : R :=
  if Rlt_dec 0 x then atan (y / x)
  else if Rlt_dec x 0 then
    (if Rle_dec 0 y then atan (y / x) + PI else atan (y / x) - PI)
  else if Rlt_dec 0 y then PI / 2
  else if Rlt_dec y 0 then - (PI / 2)
  else 0.

(** The value bound to [a] in [haversine_distance_m]. *)
Definition haversine_a (lat1 lon1 lat2 lon2 : R) : R :=
  let phi1 := radians lat1 in
  let phi2 := radians lat2 in
  let dphi := radians (lat2 - lat1) in
  let dlambda := radians (lon2 - lon1) in
  sin (dphi / 2) ^ 2 + cos phi1 * cos phi2 * sin (dlambda / 2) ^ 2.

Definition haversine_distance_m (lat1 lon1 lat2 lon2 : R) : result R :=
  let R := 6371000 in
  let a := haversine_a lat1 lon1 lat2 lon2 in
  bind_result (math_sqrt a) (fun sa =>
  bind_result (math_sqrt (1 - a)) (fun s1a =>
  let c := 2 * atan2 sa s1a in
  Ok (R * c))).

(** The value [haversine_distance_m] returns when both square roots are
    defined. *)
Definition distance (lat1 lon1 lat2 lon2 : R) : R :=
  let a := haversine_a lat1 lon1 lat2 lon2 in
  6371000 * (2 * atan2 (sqrt a) (sqrt (1 - a))).

End Geo.

(** ** Database rows ([models.py]) *)

Module User.
Record t : Type := mk { id : Z; username : string }.
End User.

Module Geofence.
Record t : Type := mk {
  id : Z;
  user_id : Z;
  center_lat : R;
  center_lon : R;
  radius_m : R
}.
End Geofence.

(** The [updated_at] column of [user_locations] is maintained by the server
    and read by none of the operations below; it is left out. *)
Module UserLocation.
Record t : Type := mk { id : Z; user_id : Z; lat : R; lon : R }.
End UserLocation.

Module Alert.
Record t : Type := mk {
  id : Z;
  user_id : Z;
  geofence_id : option Z;
  message : string;
  created_at : nat
}.
End Alert.

Module Device.
Record t : Type := mk {
  id : Z;
  user_id : Z;
  platform : string;
  fcm_token : string
}.
End Device.

(** ** Request and response bodies ([schemas.py]) *)

Module UserCreate.
Record t : Type := mk { username : string }.
End UserCreate.

Module LocationUpdate.
Record t : Type := mk { user_id : Z; lat : R; lon : R }.
End LocationUpdate.

Module GeofenceCreate.
Record t : Type := mk {
  user_id : Z;
  center_lat : R;
  center_lon : R;
  radius_m : R
}.
End GeofenceCreate.

Module LocationCheckResult.
Record t : Type := mk { inside : bool; distance_m : R; alert : bool }.
End LocationCheckResult.

Module DeviceRegister.
Record t : Type := mk { user_id : Z; platform : string; fcm_token : string }.
End DeviceRegister.

(** ** The database

    A table keeps its rows in insertion order together with the next value
    of its auto-increment primary key. *)

Record Table (Row : Type) : Type := mkTable {
  rows : list Row;
  next_id : Z
}.

Arguments mkTable {Row} rows next_id.
Arguments rows {Row} t.
Arguments next_id {Row} t.

Definition empty_table {Row : Type} : Table Row :=
  {| rows := []; next_id := 1 |}.

Definition insert {Row : Type} (new : Z -> Row) (t : Table Row) : Table Row * Row :=
  let row := new (next_id t) in
  ({| rows := rows t ++ [row]; next_id := next_id t + 1 |}, row).

Record Db : Type := mkDb {
  users : Table User.t;
  geofences : Table Geofence.t;
  user_locations : Table UserLocation.t;
  alerts : Table Alert.t;
  devices : Table Device.t
}.

Definition empty_db : Db :=
  {| users := empty_table; geofences := empty_table;
     user_locations := empty_table; alerts := empty_table;
     devices := empty_table |}.

Definition set_users (t : Table User.t) (d : Db) : Db :=
  {| users := t; geofences := geofences d; user_locations := user_locations d;
     alerts := alerts d; devices := devices d |}.

Definition set_geofences (t : Table Geofence.t) (d : Db) : Db :=
  {| users := users d; geofences := t; user_locations := user_locations d;
     alerts := alerts d; devices := devices d |}.

Definition set_user_locations (t : Table UserLocation.t) (d : Db) : Db :=
  {| users := users d; geofences := geofences d; user_locations := t;
     alerts := alerts d; devices := devices d |}.

Definition set_alerts (t : Table Alert.t) (d : Db) : Db :=
  {| users := users d; geofences := geofences d;
     user_locations := user_locations d; alerts := t; devices := devices d |}.

Definition set_devices (t : Table Device.t) (d : Db) : Db :=
  {| users := users d; geofences := geofences d;
     user_locations := user_locations d; alerts := alerts d; devices := t |}.

(** ** The world outside the Python process *)

(** A background job as published to the broker: the arguments of
    [process_alert_task.delay]. *)
Record Job : Type := mkJob {
  job_user_id : Z;
  job_geofence_id : option Z;
  job_message : string
}.

Inductive table_name : Type :=
| T_users | T_geofences | T_user_locations | T_alerts | T_devices.

(** The history of a run, oldest first: a transaction committed on a table,
    a call of [send_fcm_notification] for a device token, a session closed. *)
Inductive event : Type :=
| Committed (t : table_name)
| SendAttempt (token : string)
| SessionClosed.

Record World : Type := mkWorld {
  db : Db;
  clock : nat;
  broker : list Job;
  log : list event
}.

Definition tick (w : World) : World :=
  {| db := db w; clock := S (clock w); broker := broker w; log := log w |}.

Definition set_db (d : Db) (w : World) : World :=
  {| db := d; clock := clock w; broker := broker w; log := log w |}.

Definition record (e : event) (w : World) : World :=
  {| db := db w; clock := clock w; broker := broker w; log := log w ++ [e] |}.

Definition publish (j : Job) (w : World) : World :=
  {| db := db w; clock := clock w; broker := broker w ++ [j]; log := log w |}.

(** The request sent to the push provider. *)
Record Message : Type := mkMessage {
  msg_token : string;
  msg_title : string;
  msg_body : string;
  msg_data : list (string * string)
}.

Record PostRequest : Type := mkPostRequest {
  url : string;
  headers : list (string * string);
  payload : Message
}.

Inductive PostOutcome : Type :=
| Status (status_code : Z)
| PostRaised.

(** The behaviour of the external services, indexed by the clock: whether a
    round trip to MySQL or to the broker raises, what the service-account
    file and the token endpoint give, and how the push endpoint answers. *)
Record Env : Type := mkEnv {
  raises : nat -> bool;
  service_account_project_id : nat -> option string;
  oauth_token : nat -> option string;
  fcm_endpoint : nat -> PostRequest -> PostOutcome
}.

(** ** Computations: state of the world plus exceptions *)

Definition M (A : Type) : Type := World -> result A * World.

Definition ret {A : Type} (a : A) : M A := fun w => (Ok a, w).

Definition raise {A : Type} (e : exn) : M A := fun w => (Raise e, w).

Definition bind {A B : Type} (m : M A) (k : A -> M B) : M B :=
  fun w =>
    match m w with
    | (Ok a, w') => k a w'
    | (Raise e, w') => (Raise e, w')
    end.

Declare Scope monad_scope.
Delimit Scope monad_scope with monad.
Notation "x <- m ;; k" := (bind m (fun x => k))
  (at level 61, m at next level, right associativity) : monad_scope.
Notation "m ;; k" := (bind m (fun _ => k))
  (at level 61, right associativity) : monad_scope.
Local Open Scope monad_scope.

Definition lift {A : Type} (r : result A) : M A := fun w => (r, w).

(** [try: body finally: cleanup] *)
Definition try_finally {A : Type} (body : M A) (cleanup : M unit) : M A :=
  fun w =>
    match body w with
    | (r, w') =>
        match cleanup w' with
        | (Ok _, w'') => (r, w'')
        | (Raise e, w'') => (Raise e, w'')
        end
    end.

(** [for x in xs: body x] *)
Fixpoint for_each {A : Type} (xs : list A) (body : A -> M unit) : M unit :=
  match xs with
  | [] => ret tt
  | x :: rest => body x ;; for_each rest body
  end.

(** Reading an oracle takes one unit of time. *)
Definition observe {A : Type} (oracle : nat -> A) : M A :=
  fun w => (Ok (oracle (clock w)), tick w).

(** ** The SQLAlchemy session ([database.py]) *)

Module Session.
Section WithEnv.
Variable env : Env.

(** One round trip to an external service. *)
Definition round_trip : M unit :=
  fun w =>
    if raises env (clock w) then (Raise OperationalError, tick w)
    else (Ok tt, tick w).

(** [db.query(...).first()] and [.all()] *)
Definition query {A : Type} (q : Db -> A) : M A :=
  round_trip ;; fun w => (Ok (q (db w)), w).

(** [db.commit()]: the pending changes [tx] are written in one
    transaction, or not at all when the round trip raises. *)
Definition commit {A : Type} (t : table_name) (tx : nat -> Db -> Db * A) : M A :=
  round_trip ;;
  fun w =>
    let (d, a) := tx (clock w) (db w) in
    (Ok a, record (Committed t) (set_db d w)).

(** [db.refresh(obj)] *)
Definition refresh : M unit := round_trip.

(** [db.close()] *)
Definition close : M unit := fun w => (Ok tt, record SessionClosed w).
End WithEnv.
End Session.

(** ** Persistence layer ([crud.py]) *)

Module crud.
Section WithEnv.
Variable env : Env.

(** USER CRUD *)

Definition create_user (user : UserCreate.t) : M User.t :=
  db_user <- Session.commit env T_users (fun _ d =>
    let (t, row) := insert (fun i => User.mk i (UserCreate.username user)) (users d) in
    (set_users t d, row)) ;;
  Session.refresh env ;;
  ret db_user.

Definition get_user (user_id : Z) : M (option User.t) :=
  Session.query env (fun d =>
    find (fun u => User.id u =? user_id)%Z (rows (users d))).

(** GEOFENCE CRUD *)

Definition create_geofence (geofence : GeofenceCreate.t) : M Geofence.t :=
  db_geofence <- Session.commit env T_geofences (fun _ d =>
    let (t, row) :=
      insert (fun i => Geofence.mk i
                (GeofenceCreate.user_id geofence)
                (GeofenceCreate.center_lat geofence)
                (GeofenceCreate.center_lon geofence)
                (GeofenceCreate.radius_m geofence))
             (geofences d) in
    (set_geofences t d, row)) ;;
  Session.refresh env ;;
  ret db_geofence.

Definition get_user_geofences (user_id : Z) : M (list Geofence.t) :=
  Session.query env (fun d =>
    filter (fun g => Geofence.user_id g =? user_id)%Z (rows (geofences d))).

(** LOCATION CRUD *)

(** [.order_by(UserLocation.id.desc()).first()] *)
Definition first_by_id_desc (l : list UserLocation.t) : option UserLocation.t :=
  fold_left
    (fun best r =>
       match best with
       | None => Some r
       | Some b => if (UserLocation.id b <? UserLocation.id r)%Z then Some r else Some b
       end)
    l None.

(** The UPDATE issued for a loaded row whose [lat] and [lon] were assigned. *)
Definition update_lat_lon (pk : Z) (lat lon : R) (l : list UserLocation.t)
  : list UserLocation.t :=
  map (fun r =>
         if (UserLocation.id r =? pk)%Z
         then UserLocation.mk (UserLocation.id r) (UserLocation.user_id r) lat lon
         else r)
      l.

(** The pending change of [upsert_user_location] at commit: an UPDATE of
    the loaded row, or an INSERT of a new one. *)
Definition pending_location (existing : option UserLocation.t)
    (location : LocationUpdate.t) (d : Db) : Db * UserLocation.t :=
  match existing with
  | Some e =>
      let t := user_locations d in
      (set_user_locations
         {| rows := update_lat_lon (UserLocation.id e)
                      (LocationUpdate.lat location) (LocationUpdate.lon location)
                      (rows t);
            next_id := next_id t |} d,
       UserLocation.mk (UserLocation.id e) (UserLocation.user_id e)
         (LocationUpdate.lat location) (LocationUpdate.lon location))
  | None =>
      let (t, row) :=
        insert (fun i => UserLocation.mk i
                  (LocationUpdate.user_id location)
                  (LocationUpdate.lat location)
                  (LocationUpdate.lon location))
               (user_locations d) in
      (set_user_locations t d, row)
  end.

Definition upsert_user_location (location : LocationUpdate.t) : M UserLocation.t :=
  existing <- Session.query env (fun d =>
    first_by_id_desc
      (filter (fun r => UserLocation.user_id r =? LocationUpdate.user_id location)%Z
              (rows (user_locations d)))) ;;
  existing <- Session.commit env T_user_locations
                (fun _ => pending_location existing location) ;;
  Session.refresh env ;;
  ret existing.

(** ALERT CRUD *)

Definition create_alert (user_id : Z) (geofence_id : option Z) (message : string)
  : M Alert.t :=
  alert <- Session.commit env T_alerts (fun now d =>
    let (t, row) :=
      insert (fun i => Alert.mk i user_id geofence_id message now) (alerts d) in
    (set_alerts t d, row)) ;;
  Session.refresh env ;;
  ret alert.

(** DEVICE CRUD *)

Definition get_devices_for_user (user_id : Z) : M (list Device.t) :=
  Session.query env (fun d =>
    filter (fun v => Device.user_id v =? user_id)%Z (rows (devices d))).

(** [.order_by(Alert.created_at.desc())]: newest first.  Rows of equal
    timestamp come in an order the server is free to choose. *)
Fixpoint insert_newest_first (a : Alert.t) (l : list Alert.t) : list Alert.t :=
  match l with
  | [] => [a]
  | b :: rest =>
      if (Alert.created_at b <? Alert.created_at a)%nat then a :: b :: rest
      else b :: insert_newest_first a rest
  end.

Definition order_by_created_at_desc (l : list Alert.t) : list Alert.t :=
  fold_right insert_newest_first [] l.

(** [.limit(limit).all()]: the server rejects a negative LIMIT; the error is
    filed under [OperationalError], the one database error of this model. *)
Definition limit_all (limit : Z) (l : list Alert.t) : M (list Alert.t) :=
  if (limit <? 0)%Z then raise OperationalError
  else ret (firstn (Z.to_nat limit) l).

Definition get_alerts (limit : Z) : M (list Alert.t) :=
  found <- Session.query env (fun d =>
    order_by_created_at_desc (rows (alerts d))) ;;
  limit_all limit found.

Definition get_alerts_for_user (user_id : Z) (limit : Z) : M (list Alert.t) :=
  found <- Session.query env (fun d =>
    order_by_created_at_desc
      (filter (fun a => Alert.user_id a =? user_id)%Z (rows (alerts d)))) ;;
  limit_all limit found.

(** The UPDATE issued by [register_device] for a loaded device whose
    [user_id] and [platform] were assigned. *)
Definition update_owner (pk : Z) (user_id : Z) (platform : string)
    (l : list Device.t) : list Device.t :=
  map (fun r =>
         if (Device.id r =? pk)%Z
         then Device.mk (Device.id r) user_id platform (Device.fcm_token r)
         else r)
      l.

(** Simple upsert-like behaviour: a device with the same [fcm_token] gets its
    user and platform updated, else a new row is created.  Tokens are
    compared as exact strings. *)
Definition register_device (device : DeviceRegister.t) : M Device.t :=
  existing <- Session.query env (fun d =>
    find (fun v => (Device.fcm_token v =? DeviceRegister.fcm_token device)%string)
         (rows (devices d))) ;;
  match existing with
  | Some e =>
      existing <- Session.commit env T_devices (fun _ d =>
        let t := devices d in
        (set_devices
           {| rows := update_owner (Device.id e)
                        (DeviceRegister.user_id device)
                        (DeviceRegister.platform device) (rows t);
              next_id := next_id t |} d,
         Device.mk (Device.id e) (DeviceRegister.user_id device)
           (DeviceRegister.platform device) (Device.fcm_token e))) ;;
      Session.refresh env ;;
      ret existing
  | None =>
      new_device <- Session.commit env T_devices (fun _ d =>
        let (t, row) :=
          insert (fun i => Device.mk i
                    (DeviceRegister.user_id device)
                    (DeviceRegister.platform device)
                    (DeviceRegister.fcm_token device))
                 (devices d) in
        (set_devices t d, row)) ;;
      Session.refresh env ;;
      ret new_device
  end.
End WithEnv.
End crud.

(** ** Push notifications ([notifications.py]) *)

Module notifications.
Section WithEnv.
Variable env : Env.

(** [str] of an integer. *)
Definition str (z : Z) : string := NilZero.string_of_int (Z.to_int z).

(** Truth value of an optional string: [None] and [""] are false. *)
Definition truthy (o : option string) : option string :=
  match o with
  | Some s => if (s =? "")%string then None else Some s
  | None => None
  end.

Definition _get_fcm_access_token : M (option string) :=
  observe (oauth_token env).

Definition _get_project_id_from_service_account : M (option string) :=
  observe (service_account_project_id env).

(** [requests.post(..., timeout=10)] inside [try ... except Exception] *)
Definition requests_post (req : PostRequest) : M PostOutcome :=
  observe (fun now => fcm_endpoint env now req).

Definition send_fcm_notification (token title body : string)
    (data : option (list (string * Z))) : M bool :=
  (* the call itself goes into the history *)
  (fun w => (Ok tt, record (SendAttempt token) w)) ;;
  project_id <- _get_project_id_from_service_account ;;
  match truthy project_id with
  | None => ret false
  | Some project_id =>
      access_token <- _get_fcm_access_token ;;
      match truthy access_token with
      | None => ret false
      | Some access_token =>
          let data_str : list (string * string) :=
            match data with
            | Some ((_ :: _) as kvs) => map (fun kv => (fst kv, str (snd kv))) kvs
            | _ => []
            end in
          let url := "https://fcm.googleapis.com/v1/projects/" ++ project_id
                     ++ "/messages:send" in
          let headers :=
            [("Content-Type", "application/json");
             ("Authorization", "Bearer " ++ access_token)] in
          let payload :=
            {| msg_token := token; msg_title := title; msg_body := body;
               msg_data := data_str |} in
          response <- requests_post
            {| url := url; headers := headers; payload := payload |} ;;
          match response with
          | Status code => if (code =? 200)%Z then ret true else ret false
          | PostRaised => ret false
          end
      end
  end.
End WithEnv.
End notifications.

(** ** Background job ([celery_app.py])

    The [print] calls of the loop write to standard output only and are left
    out. *)

Module celery_app.
Section WithEnv.
Variable env : Env.

(** [geofence_id or 0] *)
Definition or_0 (geofence_id : option Z) : Z :=
  match geofence_id with
  | Some g => if (g =? 0)%Z then 0%Z else g
  | None => 0%Z
  end.

Definition process_alert_task (user_id : Z) (geofence_id : option Z)
    (message : string) : M unit :=
  try_finally
    ((* 1. Create alert record *)
     alert <- crud.create_alert env user_id geofence_id message ;;
     (* 2. Fetch user's devices *)
     devices <- crud.get_devices_for_user env user_id ;;
     (* 3. Send push notification to each device *)
     let title := "Geofence Alert" in
     let body := message in
     for_each devices (fun device =>
       notifications.send_fcm_notification env
         (Device.fcm_token device) title body
         (Some [("alert_id", Alert.id alert);
                ("user_id", user_id);
                ("geofence_id", or_0 geofence_id)]) ;;
       ret tt))
    (Session.close).

(** [process_alert_task.delay(...)]: publish the job to the broker. *)
Definition delay (user_id : Z) (geofence_id : option Z) (message : string)
  : M unit :=
  Session.round_trip env ;;
  fun w => (Ok tt, publish (mkJob user_id geofence_id message) w).
End WithEnv.
End celery_app.

(** ** Request handlers ([main.py]) *)

Module main.
Section WithEnv.
Variable env : Env.

Definition create_user (user : UserCreate.t) : M User.t :=
  crud.create_user env user.

Definition create_geofence (geofence : GeofenceCreate.t) : M Geofence.t :=
  db_user <- crud.get_user env (GeofenceCreate.user_id geofence) ;;
  match db_user with
  | None => raise (HTTPException 404 "User not found")
  | Some _ => crud.create_geofence env geofence
  end.

Definition update_location (location : LocationUpdate.t)
  : M LocationCheckResult.t :=
  (* Ensure user exists *)
  db_user <- crud.get_user env (LocationUpdate.user_id location) ;;
  match db_user with
  | None => raise (HTTPException 404 "User not found")
  | Some _ =>
      (* Persist latest location *)
      crud.upsert_user_location env location ;;
      (* Get user's geofences *)
      geofences <- crud.get_user_geofences env (LocationUpdate.user_id location) ;;
      match geofences with
      | [] => raise (HTTPException 400 "User has no geofences configured")
      | gf :: _ =>
          distance <- lift (Geo.haversine_distance_m
                              (LocationUpdate.lat location)
                              (LocationUpdate.lon location)
                              (Geofence.center_lat gf)
                              (Geofence.center_lon gf)) ;;
          let inside := Geo.Rleb distance (Geofence.radius_m gf) in
          let alert := negb inside in
          (if alert then
             let message := "User is outside geofenced area" in
             celery_app.delay env (LocationUpdate.user_id location)
               (Some (Geofence.id gf)) message
           else ret tt) ;;
          ret (LocationCheckResult.mk inside distance alert)
      end
  end.
(** Register or update a device's FCM token for a user. *)
Definition register_device (device : DeviceRegister.t) : M Device.t :=
  db_user <- crud.get_user env (DeviceRegister.user_id device) ;;
  match db_user with
  | None => raise (HTTPException 404 "User not found")
  | Some _ => crud.register_device env device
  end.

(** List recent alerts; [limit] defaults to 100 in the route. *)
Definition list_alerts (limit : Z) : M (list Alert.t) :=
  crud.get_alerts env limit.

(** List recent alerts for a specific user. *)
Definition list_user_alerts (user_id : Z) (limit : Z) : M (list Alert.t) :=
  db_user <- crud.get_user env user_id ;;
  match db_user with
  | None => raise (HTTPException 404 "User not found")
  | Some _ => crud.get_alerts_for_user env user_id limit
  end.
End WithEnv.
End main.

(** ** Reliability of the external services *)

(** No round trip raises during the [len] clock ticks that follow [start]. *)
Definition reliable (env : Env) (start len : nat) : Prop :=
  forall k : nat, (k < len)%nat -> raises env (start + k) = false.

(** An environment in which nothing ever fails and every push is delivered. *)
Definition calm : Env :=
  {| raises := fun _ => false;
     service_account_project_id := fun _ => Some "geofence-mvp";
     oauth_token := fun _ => Some "ya29.token";
     fcm_endpoint := fun _ _ => Status 200 |}.

Definition world0 : World :=
  {| db := empty_db; clock := 0; broker := []; log := [] |}.

(** The location row selected by [upsert_user_location]. *)
Definition existing_location (user_id : Z) (d : Db) : option UserLocation.t :=
  crud.first_by_id_desc
    (filter (fun r => UserLocation.user_id r =? user_id)%Z
            (rows (user_locations d))).

(** The world after a successful [upsert_user_location]. *)
Definition after_upsert (location : LocationUpdate.t) (w : World) : World :=
  tick (record (Committed T_user_locations)
    (set_db (fst (crud.pending_location
                    (existing_location (LocationUpdate.user_id location) (db w))
                    location (db w)))
            (tick (tick w)))).

(** A user with one geofence of radius 100 m centred at (10, 10). *)
Definition alice : User.t := User.mk 1 "alice".

Definition home : Geofence.t := Geofence.mk 1 1 10 10 100.

Definition world1 : World :=
  {| db := {| users := {| rows := [alice]; next_id := 2 |};
              geofences := {| rows := [home]; next_id := 2 |};
              user_locations := empty_table;
              alerts := empty_table;
              devices := empty_table |};
     clock := 0; broker := []; log := [] |}.

Definition at_home : LocationUpdate.t := LocationUpdate.mk 1 10 10.


(** Primary keys are handed out in creation order: the rows of a table carry
    strictly increasing ids, all below the next id. *)
Definition created_in_order {Row : Type} (id : Row -> Z) (t : Table Row) : Prop :=
  StronglySorted Z.lt (map id (rows t)) /\
  Forall (fun r => (id r < next_id t)%Z) (rows t).


(** Alice with three registered devices. *)
Definition world3 : World :=
  {| db := {| users := {| rows := [alice]; next_id := 2 |};
              geofences := {| rows := [home]; next_id := 2 |};
              user_locations := empty_table;
              alerts := empty_table;
              devices :=
                {| rows := [Device.mk 1 1 "android" "tok-1";
                            Device.mk 2 1 "ios" "tok-2";
                            Device.mk 3 1 "web" "tok-3"];
                   next_id := 4 |} |};
     clock := 0; broker := []; log := [] |}.

(** The push endpoint rejects the second device; everything else works. *)
Definition flaky : Env :=
  {| raises := fun _ => false;
     service_account_project_id := fun _ => Some "geofence-mvp";
     oauth_token := fun _ => Some "ya29.token";
     fcm_endpoint := fun _ req =>
       if (msg_token (payload req) =? "tok-2")%string then Status 404
       else Status 200 |}.

(** MySQL is unreachable. *)
Definition storage_down : Env :=
  {| raises := fun _ => true;
     service_account_project_id := fun _ => Some "geofence-mvp";
     oauth_token := fun _ => Some "ya29.token";
     fcm_endpoint := fun _ _ => Status 200 |}.

(** The alert row written by [create_alert] in world [w]. *)
Definition new_alert (user_id : Z) (geofence_id : option Z) (message : string)
    (w : World) : Alert.t :=
  Alert.mk (next_id (alerts (db w))) user_id geofence_id message (S (clock w)).

(** The world right after the commit of [create_alert]. *)
Definition alert_committed (user_id : Z) (geofence_id : option Z) (message : string)
    (w : World) : World :=
  record (Committed T_alerts)
    (set_db (set_alerts
               {| rows := (rows (alerts (db w))
                           ++ [new_alert user_id geofence_id message w])%list;
                  next_id := next_id (alerts (db w)) + 1 |}
               (db w))
            (tick w)).

(** ** Vocabulary for properties of whole computations *)

(** The storage and the broker never fail. *)
Definition always_up (env : Env) : Prop :=
  forall n : nat, raises env n = false.

(** Running [m] from [w] ends in a world related to [w] by [P], whatever the
    result. *)
Definition keeps {A : Type} (P : World -> World -> Prop) (m : M A) (w : World)
  : Prop :=
  P w (snd (m w)).

(** Nothing outside the Python process changed, the clock apart. *)
Definition untouched (w w' : World) : Prop :=
  db w' = db w /\ broker w' = broker w /\ log w' = log w.

(** The database is the same. *)
Definition same_db (w w' : World) : Prop := db w' = db w.

(** Every table but [user_locations] is the same. *)
Definition only_locations_differ (w w' : World) : Prop :=
  users (db w') = users (db w) /\ geofences (db w') = geofences (db w) /\
  alerts (db w') = alerts (db w) /\ devices (db w') = devices (db w).


(** Alice and Bob; Alice has two registered devices. *)
Definition world_devices : World :=
  {| db := {| users := {| rows := [alice; User.mk 2 "bob"]; next_id := 3 |};
              geofences := {| rows := [home]; next_id := 2 |};
              user_locations := empty_table;
              alerts := empty_table;
              devices :=
                {| rows := [Device.mk 1 1 "android" "tok-1";
                            Device.mk 2 1 "ios" "tok-2"];
                   next_id := 3 |} |};
     clock := 0; broker := []; log := [] |}.

(** A list of alerts runs from the newest to the oldest. *)
Definition newest_first (l : list Alert.t) : Prop :=
  StronglySorted (fun a b => (Alert.created_at b <= Alert.created_at a)%nat) l.

(** Alice with three alerts and Bob with one. *)
Definition world_alerts : World :=
  {| db := {| users := {| rows := [alice; User.mk 2 "bob"]; next_id := 3 |};
              geofences := {| rows := [home]; next_id := 2 |};
              user_locations := empty_table;
              alerts :=
                {| rows := [Alert.mk 1 1 (Some 1%Z) "User is outside geofenced area" 3;
                            Alert.mk 2 2 None "User is outside geofenced area" 5;
                            Alert.mk 3 1 (Some 1%Z) "User is outside geofenced area" 8;
                            Alert.mk 4 1 (Some 1%Z) "User is outside geofenced area" 13];
                   next_id := 5 |};
              devices := empty_table |};
     clock := 20; broker := []; log := [] |}.

(** The query for the devices fails; the alert was written just before. *)
Definition devices_query_down : Env :=
  {| raises := fun n => (n =? 2)%nat;
     service_account_project_id := fun _ => Some "geofence-mvp";
     oauth_token := fun _ => Some "ya29.token";
     fcm_endpoint := fun _ _ => Status 200 |}.

(** The third round trip fails, the others work. *)
Definition third_round_trip_fails : Env :=
  {| raises := fun n => (n =? 2)%nat;
     service_account_project_id := fun _ => Some "geofence-mvp";
     oauth_token := fun _ => Some "ya29.token";
     fcm_endpoint := fun _ _ => Status 200 |}.

(** Alice and Bob, each with a stored location. *)
Definition world_located : World :=
  {| db := {| users := {| rows := [alice; User.mk 2 "bob"]; next_id := 3 |};
              geofences := {| rows := [home]; next_id := 2 |};
              user_locations :=
                {| rows := [UserLocation.mk 1 1 10 10; UserLocation.mk 2 2 48 2];
                   next_id := 3 |};
              alerts := empty_table;
              devices := empty_table |};
     clock := 0; broker := []; log := [] |}.

(** ** Consistency of the stored data *)







Local Open Scope list_scope.

(** ** Geo math: lemmas *)

Module GeoFacts.
Import Geo.
Local Open Scope R_scope.

Lemma Rleb_true (x y : R) : Rleb x y = true <-> x <= y.
Proof.
  unfold Rleb. destruct (Rle_dec x y); split; intros; try easy.
Qed.

Lemma Rleb_false (x y : R) : Rleb x y = false <-> y < x.
Proof.
  unfold Rleb. destruct (Rle_dec x y); split; intros; try easy; lra.
Qed.

Lemma sq_sin_le_1 (x : R) : 0 <= sin x ^ 2 <= 1.
Proof.
  pose proof (sin2_cos2 x) as H. unfold Rsqr in H.
  pose proof (pow2_ge_0 (sin x)). pose proof (pow2_ge_0 (cos x)).
  simpl in *. lra.
Qed.

Lemma sq_cos_le_1 (x : R) : 0 <= cos x ^ 2 <= 1.
Proof.
  pose proof (sin2_cos2 x) as H. unfold Rsqr in H.
  pose proof (pow2_ge_0 (sin x)). pose proof (pow2_ge_0 (cos x)).
  simpl in *. lra.
Qed.

(** [cos (m - h) * cos (m + h) = cos h ^ 2 - sin m ^ 2] *)
Lemma cos_pair (m h : R) :
  cos (m - h) * cos (m + h) = cos h ^ 2 - sin m ^ 2.
Proof.
  rewrite cos_minus, cos_plus.
  pose proof (sin2_cos2 m) as Hm. pose proof (sin2_cos2 h) as Hh.
  unfold Rsqr in Hm, Hh.
  assert (Em : cos m * cos m = 1 - sin m * sin m) by lra.
  assert (Eh : sin h * sin h = 1 - cos h * cos h) by lra.
  transitivity ((cos m * cos m) * (cos h * cos h) - (sin m * sin m) * (sin h * sin h)).
  - ring.
  - rewrite Em, Eh. ring.
Qed.

(** The haversine term is a convex combination of two squares. *)
Lemma haversine_a_convex (lat1 lon1 lat2 lon2 : R) :
  let h := (radians lat2 - radians lat1) / 2 in
  let m := (radians lat2 + radians lat1) / 2 in
  let s := sin (radians (lon2 - lon1) / 2) ^ 2 in
  haversine_a lat1 lon1 lat2 lon2 = (1 - s) * sin h ^ 2 + s * cos m ^ 2.
Proof.
  intros h m s. unfold haversine_a.
  replace (radians (lat2 - lat1) / 2) with h by (unfold h, radians; field).
  replace (radians lat1) with (m - h) by (unfold m, h; field).
  replace (radians lat2) with (m + h) by (unfold m, h; field).
  rewrite cos_pair. fold s.
  pose proof (sin2_cos2 m) as Hm. pose proof (sin2_cos2 h) as Hh.
  unfold Rsqr in Hm, Hh.
  replace (cos h ^ 2) with (1 - sin h ^ 2) by (simpl; lra).
  replace (cos m ^ 2) with (1 - sin m ^ 2) by (simpl; lra).
  ring.
Qed.

Lemma haversine_a_bounds (lat1 lon1 lat2 lon2 : R) :
  0 <= haversine_a lat1 lon1 lat2 lon2 <= 1.
Proof.
  rewrite haversine_a_convex.
  set (s := sin (radians (lon2 - lon1) / 2) ^ 2).
  set (p := sin ((radians lat2 - radians lat1) / 2) ^ 2).
  set (q := cos ((radians lat2 + radians lat1) / 2) ^ 2).
  assert (Hs : 0 <= s <= 1) by apply sq_sin_le_1.
  assert (Hp : 0 <= p <= 1) by apply sq_sin_le_1.
  assert (Hq : 0 <= q <= 1) by apply sq_cos_le_1.
  split; nra.
Qed.

Lemma haversine_a_sym (lat1 lon1 lat2 lon2 : R) :
  haversine_a lat1 lon1 lat2 lon2 = haversine_a lat2 lon2 lat1 lon1.
Proof.
  unfold haversine_a.
  replace (radians (lat1 - lat2) / 2) with (- (radians (lat2 - lat1) / 2))
    by (unfold radians; field).
  replace (radians (lon1 - lon2) / 2) with (- (radians (lon2 - lon1) / 2))
    by (unfold radians; field).
  rewrite !sin_neg. ring.
Qed.

Lemma haversine_a_same (lat lon : R) : haversine_a lat lon lat lon = 0.
Proof.
  unfold haversine_a.
  replace (radians (lat - lat) / 2) with 0 by (unfold radians; field).
  replace (radians (lon - lon) / 2) with 0 by (unfold radians; field).
  rewrite sin_0. ring.
Qed.

Lemma haversine_distance_m_ok (lat1 lon1 lat2 lon2 : R) :
  haversine_distance_m lat1 lon1 lat2 lon2 = Ok (distance lat1 lon1 lat2 lon2).
Proof.
  unfold haversine_distance_m, distance, math_sqrt.
  pose proof (haversine_a_bounds lat1 lon1 lat2 lon2) as [H0 H1].
  destruct (Rlt_dec (haversine_a lat1 lon1 lat2 lon2) 0) as [Hlt|_]; [lra|].
  simpl.
  destruct (Rlt_dec (1 - haversine_a lat1 lon1 lat2 lon2) 0) as [Hlt|_]; [lra|].
  reflexivity.
Qed.

Lemma atan2_0_1 : atan2 0 1 = 0.
Proof.
  unfold atan2. destruct (Rlt_dec 0 1) as [_|H]; [|lra].
  replace (0 / 1) with 0 by field. apply atan_0.
Qed.

Lemma distance_same (lat lon : R) : distance lat lon lat lon = 0.
Proof.
  unfold distance. rewrite haversine_a_same.
  replace (1 - 0) with 1 by ring.
  rewrite sqrt_0, sqrt_1, atan2_0_1. ring.
Qed.

Lemma distance_sym (lat1 lon1 lat2 lon2 : R) :
  distance lat1 lon1 lat2 lon2 = distance lat2 lon2 lat1 lon1.
Proof.
  unfold distance. rewrite (haversine_a_sym lat1 lon1 lat2 lon2). reflexivity.
Qed.

End GeoFacts.
(** ** Running computations *)

Local Open Scope monad_scope.

Section Running.
Variable env : Env.

Lemma bind_ok {A B : Type} (m : M A) (k : A -> M B) {w w' : World} {a : A} :
  m w = (Ok a, w') -> bind m k w = k a w'.
Proof. intros H. unfold bind. rewrite H. reflexivity. Qed.

Lemma bind_raise {A B : Type} (m : M A) (k : A -> M B) {w w' : World} {e : exn} :
  m w = (Raise e, w') -> bind m k w = (Raise e, w').
Proof. intros H. unfold bind. rewrite H. reflexivity. Qed.

Lemma reliable_head (start len : nat) :
  reliable env start (S len) -> raises env start = false.
Proof.
  intros H. specialize (H 0%nat). rewrite Nat.add_0_r in H. apply H. lia.
Qed.

Lemma reliable_tail (start len : nat) :
  reliable env start (S len) -> reliable env (S start) len.
Proof.
  intros H k Hk. replace (S start + k)%nat with (start + S k)%nat by lia.
  apply H. lia.
Qed.

Lemma reliable_weaken (start len len' : nat) :
  (len' <= len)%nat -> reliable env start len -> reliable env start len'.
Proof. intros Hle H k Hk. apply H. lia. Qed.

Lemma calm_reliable (start len : nat) : reliable calm start len.
Proof. intros k _. reflexivity. Qed.

Lemma round_trip_ok (w : World) :
  raises env (clock w) = false -> Session.round_trip env w = (Ok tt, tick w).
Proof. intros H. unfold Session.round_trip. rewrite H. reflexivity. Qed.

Lemma round_trip_raise (w : World) :
  raises env (clock w) = true ->
  Session.round_trip env w = (Raise OperationalError, tick w).
Proof. intros H. unfold Session.round_trip. rewrite H. reflexivity. Qed.

Lemma query_ok {A : Type} (q : Db -> A) (w : World) :
  raises env (clock w) = false ->
  Session.query env q w = (Ok (q (db w)), tick w).
Proof.
  intros H. unfold Session.query.
  rewrite (bind_ok _ _ (round_trip_ok w H)). reflexivity.
Qed.

Lemma commit_ok {A : Type} (t : table_name) (tx : nat -> Db -> Db * A) (w : World) :
  raises env (clock w) = false ->
  Session.commit env t tx w =
  (Ok (snd (tx (S (clock w)) (db w))),
   record (Committed t) (set_db (fst (tx (S (clock w)) (db w))) (tick w))).
Proof.
  intros H. unfold Session.commit.
  rewrite (bind_ok _ _ (round_trip_ok w H)). simpl.
  destruct (tx (S (clock w)) (db w)); reflexivity.
Qed.

Lemma commit_raise {A : Type} (t : table_name) (tx : nat -> Db -> Db * A) (w : World) :
  raises env (clock w) = true ->
  Session.commit env t tx w = (Raise OperationalError, tick w).
Proof.
  intros H. unfold Session.commit.
  rewrite (bind_raise _ _ (round_trip_raise w H)). reflexivity.
Qed.

End Running.

(** Run the next round trip of the goal, using the first tick of the
    reliability window [H]. *)
Ltac run_io H :=
  cbv beta;
  erewrite bind_ok;
  [ | first [ apply query_ok | apply commit_ok | apply round_trip_ok ];
      simpl; exact (reliable_head _ _ _ H) ];
  try apply reliable_tail in H.


(** *** [crud] under reliable storage *)

Section RunningCrud.
Variable env : Env.

Lemma get_user_ok (user_id : Z) (w : World) :
  raises env (clock w) = false ->
  crud.get_user env user_id w =
  (Ok (find (fun u => User.id u =? user_id)%Z (rows (users (db w)))), tick w).
Proof. intros H. unfold crud.get_user. now rewrite query_ok. Qed.

Lemma get_user_geofences_ok (user_id : Z) (w : World) :
  raises env (clock w) = false ->
  crud.get_user_geofences env user_id w =
  (Ok (filter (fun g => Geofence.user_id g =? user_id)%Z (rows (geofences (db w)))),
   tick w).
Proof. intros H. unfold crud.get_user_geofences. now rewrite query_ok. Qed.

Lemma get_devices_for_user_ok (user_id : Z) (w : World) :
  raises env (clock w) = false ->
  crud.get_devices_for_user env user_id w =
  (Ok (filter (fun v => Device.user_id v =? user_id)%Z (rows (devices (db w)))),
   tick w).
Proof. intros H. unfold crud.get_devices_for_user. now rewrite query_ok. Qed.

Lemma upsert_user_location_ok (location : LocationUpdate.t) (w : World) :
  reliable env (clock w) 3 ->
  crud.upsert_user_location env location w =
  (Ok (snd (crud.pending_location
              (existing_location (LocationUpdate.user_id location) (db w))
              location (db w))),
   after_upsert location w).
Proof.
  intros H. unfold crud.upsert_user_location, Session.refresh.
  run_io H. run_io H. run_io H. reflexivity.
Qed.
End RunningCrud.


(** ** The location upsert touches only [user_locations] *)

Lemma pending_location_frame (existing : option UserLocation.t)
    (location : LocationUpdate.t) (d : Db) :
  let d' := fst (crud.pending_location existing location d) in
  users d' = users d /\ geofences d' = geofences d /\
  alerts d' = alerts d /\ devices d' = devices d.
Proof.
  destruct existing; simpl; repeat split; reflexivity.
Qed.

Lemma after_upsert_frame (location : LocationUpdate.t) (w : World) :
  let w' := after_upsert location w in
  users (db w') = users (db w) /\ geofences (db w') = geofences (db w) /\
  alerts (db w') = alerts (db w) /\ devices (db w') = devices (db w) /\
  broker w' = broker w /\
  log w' = log w ++ [Committed T_user_locations] /\
  clock w' = (3 + clock w)%nat.
Proof.
  unfold after_upsert. simpl.
  pose proof (pending_location_frame
    (existing_location (LocationUpdate.user_id location) (db w)) location (db w))
    as (Hu & Hg & Ha & Hd).
  simpl in *. repeat split; assumption.
Qed.

Lemma db_after_upsert (location : LocationUpdate.t) (w : World) :
  db (after_upsert location w)
  = fst (crud.pending_location
           (existing_location (LocationUpdate.user_id location) (db w))
           location (db w)).
Proof. reflexivity. Qed.

(** ** The location-update handler, run under reliable services *)

Section RunningMain.
Variable env : Env.

Lemma update_location_run (location : LocationUpdate.t) (w : World) :
  reliable env (clock w) 6 ->
  main.update_location env location w =
  match find (fun u => User.id u =? LocationUpdate.user_id location)%Z
             (rows (users (db w))) with
  | None => (Raise (HTTPException 404 "User not found"), tick w)
  | Some _ =>
      let w1 := tick (after_upsert location (tick w)) in
      match filter (fun g => Geofence.user_id g =? LocationUpdate.user_id location)%Z
                   (rows (geofences (db w))) with
      | [] => (Raise (HTTPException 400 "User has no geofences configured"), w1)
      | gf :: _ =>
          let distance := Geo.distance (LocationUpdate.lat location)
                            (LocationUpdate.lon location)
                            (Geofence.center_lat gf) (Geofence.center_lon gf) in
          let inside := Geo.Rleb distance (Geofence.radius_m gf) in
          (Ok (LocationCheckResult.mk inside distance (negb inside)),
           if negb inside then
             publish (mkJob (LocationUpdate.user_id location)
                        (Some (Geofence.id gf))
                        "User is outside geofenced area")
                     (tick w1)
           else w1)
      end
  end.
Proof.
  intros H. unfold main.update_location.
  erewrite bind_ok by (apply get_user_ok; exact (reliable_head _ _ _ H)).
  apply reliable_tail in H.
  destruct (find _ (rows (users (db w)))) as [u|]; [|reflexivity].
  erewrite bind_ok
    by (apply upsert_user_location_ok; simpl;
        exact (reliable_weaken env (S (clock w)) 5 3 ltac:(lia) H)).
  assert (H4 : raises env (clock (after_upsert location (tick w))) = false).
  { simpl. replace (S (S (S (S (clock w))))) with (S (clock w) + 3)%nat by lia.
    apply H. lia. }
  erewrite bind_ok by (apply get_user_geofences_ok; exact H4).
  destruct (after_upsert_frame location (tick w)) as (_ & Hg & _).
  rewrite Hg. change (db (tick w)) with (db w).
  destruct (filter _ (rows (geofences (db w)))) as [|gf rest]; [reflexivity|].
  unfold lift. erewrite bind_ok
    by (rewrite GeoFacts.haversine_distance_m_ok; reflexivity).
  set (inside := Geo.Rleb _ _).
  destruct inside; simpl negb; cbv iota.
  - reflexivity.
  - unfold celery_app.delay.
    assert (H5 : raises env (clock (tick (after_upsert location (tick w)))) = false).
    { simpl. replace (S (S (S (S (S (clock w)))))) with (S (clock w) + 4)%nat by lia.
      apply H. lia. }
    erewrite bind_ok.
    2:{ erewrite bind_ok by (apply round_trip_ok; exact H5). reflexivity. }
    reflexivity.
Qed.
End RunningMain.

(** ** Containment and outcome of a location update *)





(** ** The row written by the location upsert *)

Lemma fold_best_in (l : list UserLocation.t) (acc : option UserLocation.t)
    (e : UserLocation.t) :
  fold_left
    (fun best r =>
       match best with
       | None => Some r
       | Some b => if (UserLocation.id b <? UserLocation.id r)%Z then Some r else Some b
       end) l acc = Some e ->
  acc = Some e \/ In e l.
Proof.
  revert acc. induction l as [|r l IH]; intros acc H; simpl in H.
  - left. exact H.
  - apply IH in H. destruct H as [H|H]; [|right; right; exact H].
    destruct acc as [b|].
    + destruct (UserLocation.id b <? UserLocation.id r)%Z.
      * injection H as <-. right. left. reflexivity.
      * left. exact H.
    + injection H as <-. right. left. reflexivity.
Qed.

Lemma first_by_id_desc_in (l : list UserLocation.t) (e : UserLocation.t) :
  crud.first_by_id_desc l = Some e -> In e l.
Proof.
  intros H. apply fold_best_in in H. destruct H as [H|H]; [discriminate|exact H].
Qed.

Lemma existing_location_in (user_id : Z) (d : Db) (e : UserLocation.t) :
  existing_location user_id d = Some e ->
  In e (rows (user_locations d)) /\ UserLocation.user_id e = user_id.
Proof.
  intros H. apply first_by_id_desc_in in H. apply filter_In in H.
  destruct H as [Hin Heq]. split; [exact Hin|]. now apply Z.eqb_eq.
Qed.

Lemma pending_location_written (location : LocationUpdate.t) (d : Db) :
  let p := crud.pending_location
             (existing_location (LocationUpdate.user_id location) d) location d in
  In (snd p) (rows (user_locations (fst p))) /\
  UserLocation.user_id (snd p) = LocationUpdate.user_id location /\
  UserLocation.lat (snd p) = LocationUpdate.lat location /\
  UserLocation.lon (snd p) = LocationUpdate.lon location.
Proof.
  destruct (existing_location (LocationUpdate.user_id location) d) as [e|] eqn:E;
    simpl.
  - apply existing_location_in in E. destruct E as [Hin Hu].
    repeat split; try assumption.
    unfold crud.update_lat_lon.
    apply in_map_iff. exists e. split; [|exact Hin].
    rewrite Z.eqb_refl. reflexivity.
  - repeat split. apply in_or_app. right. left. reflexivity.
Qed.

(** ** Persistence before failure *)




(** ** Alert decision and dispatch *)



(** ** Creation order of a table *)


Lemma sorted_snoc (l : list Z) (x : Z) :
  StronglySorted Z.lt l -> Forall (fun y => (y < x)%Z) l ->
  StronglySorted Z.lt (l ++ [x]).
Proof.
  induction 1 as [|y l Hs IH Hy]; intros Hall; simpl.
  - repeat constructor.
  - inversion Hall as [|? ? Hyx Hl]; subst. constructor.
    + apply IH. exact Hl.
    + apply Forall_app. split; [exact Hy|]. constructor; [exact Hyx|constructor].
Qed.

Lemma created_in_order_insert {Row : Type} (id : Row -> Z) (new : Z -> Row)
    (t : Table Row) :
  (forall i, id (new i) = i) ->
  created_in_order id t -> created_in_order id (fst (insert new t)).
Proof.
  intros Hid [Hs Hb]. unfold insert. split; simpl.
  - rewrite map_app. simpl. rewrite Hid. apply sorted_snoc; [exact Hs|].
    apply Forall_map. exact Hb.
  - apply Forall_app. split.
    + eapply Forall_impl; [|exact Hb]. simpl. intros r Hr. lia.
    + constructor; [|constructor]. rewrite Hid. lia.
Qed.


(** Creating a geofence keeps the table in creation order, whether or not
    the storage fails. *)
Lemma create_geofence_keeps_order (env : Env) (geofence : GeofenceCreate.t) (w : World) :
  created_in_order Geofence.id (geofences (db w)) ->
  created_in_order Geofence.id
    (geofences (db (snd (main.create_geofence env geofence w)))).
Proof.
  intros Hw. unfold main.create_geofence, crud.get_user, Session.query, bind,
    Session.round_trip, raise.
  destruct (raises env (clock w)); simpl; [exact Hw|].
  destruct (find _ _); simpl; [|exact Hw].
  unfold crud.create_geofence, Session.commit, Session.refresh, bind,
    Session.round_trip, ret. simpl.
  destruct (raises env (S (clock w))); simpl; [exact Hw|].
  destruct (raises env (S (S (clock w)))); simpl;
    apply (created_in_order_insert Geofence.id
             (fun i => Geofence.mk i _ _ _ _)); auto.
Qed.

(** ** Selection of the geofence *)



(** ** One current location per user *)

Lemma filter_map_stable {A : Type} (p : A -> bool) (f : A -> A) (l : list A) :
  (forall x, p (f x) = p x) -> filter p (map f l) = map f (filter p l).
Proof.
  intros Hp. induction l as [|x l IH]; simpl; [reflexivity|].
  rewrite Hp. destruct (p x); simpl; rewrite IH; reflexivity.
Qed.

Lemma pending_location_one_row (location : LocationUpdate.t) (d : Db) :
  let mine := fun r => (UserLocation.user_id r =? LocationUpdate.user_id location)%Z in
  let p := crud.pending_location
             (existing_location (LocationUpdate.user_id location) d) location d in
  (List.length (filter mine (rows (user_locations d))) <= 1)%nat ->
  filter mine (rows (user_locations (fst p))) = [snd p] /\
  (filter mine (rows (user_locations d)) <> [] ->
   List.length (rows (user_locations (fst p))) = List.length (rows (user_locations d))).
Proof.
  intros mine p Hlen. subst p. unfold existing_location. fold mine.
  destruct (filter mine (rows (user_locations d))) as [|e [|e' l]] eqn:Ef.
  - simpl. rewrite filter_app, Ef. simpl. unfold mine at 1. simpl.
    rewrite Z.eqb_refl. split; [reflexivity|]. intros H. now elim H.
  - simpl. unfold crud.update_lat_lon. split; [|intros _; apply length_map].
    rewrite filter_map_stable.
    + rewrite Ef. simpl. rewrite Z.eqb_refl. reflexivity.
    + intros x. destruct (UserLocation.id x =? UserLocation.id e)%Z; reflexivity.
  - simpl in Hlen. lia.
Qed.

(** C8. Starting from at most one location row for a user, an upsert leaves
    exactly one row for that user, carrying the coordinates of the update;
    when a row existed it is overwritten and the table does not grow. *)
Theorem upsert_keeps_one_row
    (env : Env) (w : World) (location : LocationUpdate.t) :
  let mine := fun r => (UserLocation.user_id r =? LocationUpdate.user_id location)%Z in
  reliable env (clock w) 3 ->
  (List.length (filter mine (rows (user_locations (db w)))) <= 1)%nat ->
  exists (row : UserLocation.t) (w' : World),
    crud.upsert_user_location env location w = (Ok row, w') /\
    filter mine (rows (user_locations (db w'))) = [row] /\
    UserLocation.user_id row = LocationUpdate.user_id location /\
    UserLocation.lat row = LocationUpdate.lat location /\
    UserLocation.lon row = LocationUpdate.lon location /\
    (filter mine (rows (user_locations (db w))) <> [] ->
     List.length (rows (user_locations (db w'))) = List.length (rows (user_locations (db w)))).
Proof.
  intros mine Hrel Hlen.
  rewrite (upsert_user_location_ok env location w Hrel).
  pose proof (pending_location_one_row location (db w) Hlen) as [Hone Hsame].
  pose proof (pending_location_written location (db w)) as (_ & Hu & Hlat & Hlon).
  eexists. eexists. split; [reflexivity|]. simpl.
  repeat split; assumption.
Qed.

Lemma upsert_keeps_one_row_witness :
  reliable calm (clock world1) 3 /\
  (List.length (filter (fun r => (UserLocation.user_id r =? LocationUpdate.user_id at_home)%Z)
                  (rows (user_locations (db world1)))) <= 1)%nat /\
  exists (row : UserLocation.t) (w' : World),
    crud.upsert_user_location calm at_home world1 = (Ok row, w') /\
    filter (fun r => (UserLocation.user_id r =? LocationUpdate.user_id at_home)%Z)
           (rows (user_locations (db w'))) = [row] /\
    UserLocation.user_id row = LocationUpdate.user_id at_home /\
    UserLocation.lat row = LocationUpdate.lat at_home /\
    UserLocation.lon row = LocationUpdate.lon at_home /\
    (filter (fun r => (UserLocation.user_id r =? LocationUpdate.user_id at_home)%Z)
            (rows (user_locations (db world1))) <> [] ->
     List.length (rows (user_locations (db w'))) = List.length (rows (user_locations (db world1)))).
Proof.
  assert (H1 : reliable calm (clock world1) 3) by (intros k _; reflexivity).
  assert (H2 : (List.length (filter
                  (fun r => (UserLocation.user_id r =? LocationUpdate.user_id at_home)%Z)
                  (rows (user_locations (db world1)))) <= 1)%nat) by (simpl; lia).
  exact (conj H1 (conj H2 (upsert_keeps_one_row calm world1 at_home H1 H2))).
Defined.

(** Two upserts in a row, with the same or with different coordinates, leave
    one row, carrying the coordinates of the second. *)
Lemma upsert_twice_one_row
    (env : Env) (w : World) (first second : LocationUpdate.t) :
  let mine := fun r => (UserLocation.user_id r =? LocationUpdate.user_id first)%Z in
  LocationUpdate.user_id second = LocationUpdate.user_id first ->
  reliable env (clock w) 6 ->
  (List.length (filter mine (rows (user_locations (db w)))) <= 1)%nat ->
  exists (row : UserLocation.t) (w' : World),
    (crud.upsert_user_location env first ;;
     crud.upsert_user_location env second)%monad w = (Ok row, w') /\
    filter mine (rows (user_locations (db w'))) = [row] /\
    UserLocation.lat row = LocationUpdate.lat second /\
    UserLocation.lon row = LocationUpdate.lon second /\
    List.length (rows (user_locations (db w')))
    = List.length (rows (user_locations (db (after_upsert first w)))).
Proof.
  intros mine Hsame Hrel Hlen.
  erewrite bind_ok
    by (apply upsert_user_location_ok; exact (reliable_weaken env _ 6 3 ltac:(lia) Hrel)).
  assert (Hrel2 : reliable env (clock (after_upsert first w)) 3).
  { intros k Hk.
    replace (clock (after_upsert first w) + k)%nat with (clock w + (3 + k))%nat
      by (simpl; lia).
    apply Hrel. lia. }
  rewrite (upsert_user_location_ok env second _ Hrel2).
  pose proof (pending_location_one_row first (db w) Hlen) as [Hone _].
  rewrite <- db_after_upsert in Hone.
  subst mine. rewrite <- Hsame in Hone |- *.
  set (mine := fun r => (UserLocation.user_id r =? LocationUpdate.user_id second)%Z) in *.
  assert (Hlen2 : (List.length
            (filter mine (rows (user_locations (db (after_upsert first w))))) <= 1)%nat).
  { rewrite Hone. simpl. lia. }
  pose proof (pending_location_one_row second _ Hlen2) as [Hone2 Hgrow].
  pose proof (pending_location_written second (db (after_upsert first w)))
    as (_ & _ & Hlat & Hlon).
  fold mine in Hone2, Hgrow.
  eexists. eexists. split; [reflexivity|].
  rewrite db_after_upsert.
  split; [exact Hone2|]. split; [exact Hlat|]. split; [exact Hlon|].
  apply Hgrow. rewrite Hone. discriminate.
Qed.

(** ** Symmetry of the distance *)

(** C9. In exact arithmetic the haversine distance is symmetric in its two
    points and is zero between a point and itself. *)
Theorem haversine_distance_symmetric_and_zero :
  (forall lat1 lon1 lat2 lon2 : R,
     Geo.haversine_distance_m lat1 lon1 lat2 lon2
     = Geo.haversine_distance_m lat2 lon2 lat1 lon1) /\
  (forall lat lon : R, Geo.haversine_distance_m lat lon lat lon = Ok 0%R).
Proof.
  split; intros.
  - rewrite !GeoFacts.haversine_distance_m_ok.
    f_equal. apply GeoFacts.distance_sym.
  - rewrite GeoFacts.haversine_distance_m_ok. f_equal. apply GeoFacts.distance_same.
Qed.

(** ** Geofence creation *)

(** C10, as the code has it.  A geofence request for an existing user is
    stored with exactly the radius of the request: no lower bound is
    checked, so the stored radius is positive exactly when the requested one
    is. *)
Theorem create_geofence_stores_request_radius
    (env : Env) (w : World) (geofence : GeofenceCreate.t) (u : User.t) :
  reliable env (clock w) 3 ->
  find (fun u => User.id u =? GeofenceCreate.user_id geofence)%Z
       (rows (users (db w))) = Some u ->
  exists (gf : Geofence.t) (w' : World),
    main.create_geofence env geofence w = (Ok gf, w') /\
    rows (geofences (db w')) = rows (geofences (db w)) ++ [gf] /\
    Geofence.radius_m gf = GeofenceCreate.radius_m geofence /\
    ((0 < Geofence.radius_m gf)%R <-> (0 < GeofenceCreate.radius_m geofence)%R).
Proof.
  intros Hrel Huser. unfold main.create_geofence.
  erewrite bind_ok by (apply get_user_ok; exact (reliable_head _ _ _ Hrel)).
  apply reliable_tail in Hrel. rewrite Huser.
  unfold crud.create_geofence, Session.refresh.
  run_io Hrel. run_io Hrel.
  eexists. eexists. split; [reflexivity|]. simpl.
  split; [reflexivity|]. split; [reflexivity|]. tauto.
Qed.

Lemma create_geofence_stores_request_radius_witness :
  reliable calm (clock world1) 3 /\
  find (fun u => User.id u =? 1)%Z (rows (users (db world1))) = Some alice /\
  exists (gf : Geofence.t) (w' : World),
    main.create_geofence calm (GeofenceCreate.mk 1 20 20 50) world1 = (Ok gf, w') /\
    rows (geofences (db w')) = rows (geofences (db world1)) ++ [gf] /\
    Geofence.radius_m gf = 50%R /\
    ((0 < Geofence.radius_m gf)%R <-> (0 < 50)%R).
Proof.
  assert (H1 : reliable calm (clock world1) 3) by (intros k _; reflexivity).
  assert (H2 : find (fun u => User.id u =? 1)%Z (rows (users (db world1))) = Some alice)
    by reflexivity.
  exact (conj H1 (conj H2
    (create_geofence_stores_request_radius calm world1
       (GeofenceCreate.mk 1 20 20 50) alice H1 H2))).
Defined.

(** C10, as stated, fails: starting from the empty database, creating a user
    and then a geofence of radius -5 succeeds and stores that radius. *)
Lemma nonpositive_radius_is_stored :
  exists (gf : Geofence.t) (w' : World),
    (main.create_user calm (UserCreate.mk "alice") ;;
     main.create_geofence calm (GeofenceCreate.mk 1 10 10 (-5)))%monad world0
    = (Ok gf, w') /\
    In gf (rows (geofences (db w'))) /\
    Geofence.radius_m gf = (-5)%R /\
    ~ (0 < Geofence.radius_m gf)%R.
Proof.
  eexists. eexists. split; [reflexivity|]. simpl.
  split; [left; reflexivity|]. split; [reflexivity|]. lra.
Qed.

(** ** The push sender never raises *)

Section RunningJob.
Variable env : Env.

Lemma send_fcm_notification_total (token title body : string)
    (data : option (list (string * Z))) (w : World) :
  exists (sent : bool) (w' : World),
    notifications.send_fcm_notification env token title body data w = (Ok sent, w') /\
    db w' = db w /\ broker w' = broker w /\
    log w' = log w ++ [SendAttempt token].
Proof.
  unfold notifications.send_fcm_notification,
    notifications._get_project_id_from_service_account,
    notifications._get_fcm_access_token, notifications.requests_post,
    bind, observe, ret.
  cbv beta iota.
  destruct (notifications.truthy (service_account_project_id env _));
    [|eexists; eexists; split; [reflexivity|]; repeat split].
  cbv beta iota.
  destruct (notifications.truthy (oauth_token env _));
    [|eexists; eexists; split; [reflexivity|]; repeat split].
  cbv beta iota.
  destruct (fcm_endpoint env _ _) as [code|];
    [destruct (code =? 200)%Z|];
    eexists; eexists; (split; [reflexivity|]); repeat split.
Qed.

(** The loop of [process_alert_task]: one attempt per device, in order. *)
Lemma notify_all_devices (devices : list Device.t) (title body : string)
    (data : option (list (string * Z))) (w : World) :
  exists w' : World,
    for_each devices (fun device =>
      notifications.send_fcm_notification env
        (Device.fcm_token device) title body data ;;
      ret tt) w = (Ok tt, w') /\
    db w' = db w /\ broker w' = broker w /\
    log w' = log w ++ map (fun d => SendAttempt (Device.fcm_token d)) devices.
Proof.
  revert w. induction devices as [|device devices IH]; intros w; simpl.
  - exists w. rewrite app_nil_r. repeat split.
  - destruct (send_fcm_notification_total (Device.fcm_token device) title body data w)
      as (sent & w1 & Hsend & Hdb & Hbroker & Hlog).
    destruct (IH w1) as (w2 & Hrest & Hdb2 & Hbroker2 & Hlog2).
    exists w2. split.
    + erewrite bind_ok; [exact Hrest|].
      erewrite bind_ok by exact Hsend. reflexivity.
    + rewrite Hdb2, Hbroker2, Hlog2, Hdb, Hbroker, Hlog, <- app_assoc.
      repeat split.
Qed.

(** [create_alert], by the faults met at its commit and at its refresh. *)
Lemma create_alert_run (user_id : Z) (geofence_id : option Z) (message : string)
    (w : World) :
  crud.create_alert env user_id geofence_id message w =
  if raises env (clock w) then (Raise OperationalError, tick w)
  else if raises env (S (clock w))
       then (Raise OperationalError,
             tick (alert_committed user_id geofence_id message w))
       else (Ok (new_alert user_id geofence_id message w),
             tick (alert_committed user_id geofence_id message w)).
Proof.
  unfold crud.create_alert, Session.commit, Session.refresh, bind,
    Session.round_trip, ret.
  destruct (raises env (clock w)); [reflexivity|]. simpl.
  destruct (raises env (S (clock w))); reflexivity.
Qed.

Lemma try_finally_close {A : Type} (body : M A) (w w' : World) (r : result A) :
  body w = (r, w') ->
  try_finally body Session.close w = (r, record SessionClosed w').
Proof. intros H. unfold try_finally. rewrite H. reflexivity. Qed.
End RunningJob.

(** ** The dispatcher job *)

(** C6. The job writes the alert row before anything else.  When
    [create_alert] raises, the job raises the same error and attempts no
    send.  When it succeeds, the row holds the job's user, geofence, message
    and the time of the commit, the job adds exactly that one row to
    [alerts], and everything else the job does, every send attempt included,
    comes after the commit. *)
Theorem alert_persisted_before_notifications
    (env : Env) (user_id : Z) (geofence_id : option Z) (message : string)
    (w : World) :
  match crud.create_alert env user_id geofence_id message w with
  | (Raise e, w1) =>
      exists new : list event,
        celery_app.process_alert_task env user_id geofence_id message w
        = (Raise e, record SessionClosed w1) /\
        log (record SessionClosed w1) = log w ++ new /\
        (forall token : string, ~ In (SendAttempt token) new)
  | (Ok alert, w1) =>
      exists (outcome : result unit) (w' : World) (rest : list event),
        celery_app.process_alert_task env user_id geofence_id message w
        = (outcome, w') /\
        alert = Alert.mk (next_id (alerts (db w))) user_id geofence_id message
                         (S (clock w)) /\
        rows (alerts (db w1)) = rows (alerts (db w)) ++ [alert] /\
        rows (alerts (db w')) = rows (alerts (db w)) ++ [alert] /\
        log w' = log w ++ Committed T_alerts :: rest
  end.
Proof.
  unfold celery_app.process_alert_task.
  pose proof (create_alert_run env user_id geofence_id message w) as Hrun.
  destruct (raises env (clock w)) eqn:F0.
  - rewrite Hrun. exists [SessionClosed]. split.
    + apply try_finally_close. apply bind_raise. exact Hrun.
    + split; [reflexivity|]. intros token [H|[]]. discriminate.
  - destruct (raises env (S (clock w))) eqn:F1; rewrite Hrun.
    + exists [Committed T_alerts; SessionClosed]. split.
      * apply try_finally_close. apply bind_raise. exact Hrun.
      * split; [simpl; rewrite <- app_assoc; reflexivity|].
        intros token [H|[H|[]]]; discriminate.
    + set (w1 := tick (alert_committed user_id geofence_id message w)).
      destruct (raises env (clock w1)) eqn:F2.
      * exists (Raise OperationalError), (record SessionClosed (tick w1)),
          [SessionClosed].
        split.
        { apply try_finally_close. erewrite bind_ok by exact Hrun.
          apply bind_raise. unfold crud.get_devices_for_user, Session.query.
          apply bind_raise. apply round_trip_raise. exact F2. }
        split; [reflexivity|]. split; [reflexivity|]. split; [reflexivity|].
        simpl. rewrite <- app_assoc. reflexivity.
      * destruct (notify_all_devices env
                    (filter (fun v => Device.user_id v =? user_id)%Z
                            (rows (devices (db (tick w1)))))
                    "Geofence Alert" message
                    (Some [("alert_id", Alert.id (new_alert user_id geofence_id message w));
                           ("user_id", user_id);
                           ("geofence_id", celery_app.or_0 geofence_id)])
                    (tick w1))
          as (w2 & Hloop & Hdb & _ & Hlog).
        exists (Ok tt), (record SessionClosed w2),
          (map (fun d => SendAttempt (Device.fcm_token d))
               (filter (fun v => Device.user_id v =? user_id)%Z
                       (rows (devices (db (tick w1)))))
           ++ [SessionClosed]).
        split.
        { apply try_finally_close. erewrite bind_ok by exact Hrun.
          erewrite bind_ok by (apply get_devices_for_user_ok; exact F2).
          exact Hloop. }
        split; [reflexivity|]. split; [reflexivity|].
        split; [simpl; rewrite Hdb; reflexivity|].
        simpl. rewrite Hlog. simpl. rewrite <- !app_assoc. reflexivity.
Qed.

(** C7. Once the alert row is written and the devices are fetched, the job
    attempts one send per device, in order, whatever any of the sends
    returns, and ends without error; with no device it ends without error
    and without attempt.  A send always returns a boolean: it never raises. *)
Theorem sends_are_independent
    (env : Env) (user_id : Z) (geofence_id : option Z) (message : string)
    (w : World) :
  let devices := filter (fun v => Device.user_id v =? user_id)%Z
                        (rows (devices (db w))) in
  reliable env (clock w) 3 ->
  (exists w' : World,
     celery_app.process_alert_task env user_id geofence_id message w = (Ok tt, w') /\
     log w' = log w ++ Committed T_alerts
                    :: map (fun d => SendAttempt (Device.fcm_token d)) devices
                    ++ [SessionClosed]) /\
  (devices = [] ->
   exists w' : World,
     celery_app.process_alert_task env user_id geofence_id message w = (Ok tt, w') /\
     log w' = log w ++ [Committed T_alerts; SessionClosed]) /\
  (forall (token title body : string) (data : option (list (string * Z)))
          (w0 : World),
     exists (sent : bool) (w0' : World),
       notifications.send_fcm_notification env token title body data w0
       = (Ok sent, w0')).
Proof.
  intros devices Hrel.
  assert (Hmain : exists w' : World,
     celery_app.process_alert_task env user_id geofence_id message w = (Ok tt, w') /\
     log w' = log w ++ Committed T_alerts
                    :: map (fun d => SendAttempt (Device.fcm_token d)) devices
                    ++ [SessionClosed]).
  { unfold celery_app.process_alert_task.
    pose proof (create_alert_run env user_id geofence_id message w) as Hrun.
    rewrite (reliable_head _ _ _ Hrel) in Hrun. apply reliable_tail in Hrel.
    rewrite (reliable_head _ _ _ Hrel) in Hrun. apply reliable_tail in Hrel.
    set (w1 := tick (alert_committed user_id geofence_id message w)) in *.
    destruct (notify_all_devices env devices "Geofence Alert" message
                (Some [("alert_id", Alert.id (new_alert user_id geofence_id message w));
                       ("user_id", user_id);
                       ("geofence_id", celery_app.or_0 geofence_id)])
                (tick w1))
      as (w2 & Hloop & _ & _ & Hlog).
    exists (record SessionClosed w2). split.
    - apply try_finally_close. erewrite bind_ok by exact Hrun.
      erewrite bind_ok
        by (apply get_devices_for_user_ok; exact (reliable_head _ _ _ Hrel)).
      exact Hloop.
    - simpl. rewrite Hlog. simpl. rewrite <- !app_assoc. reflexivity. }
  split; [exact Hmain|]. split.
  - intros Hnone. destruct Hmain as (w' & Hjob & Hlog).
    exists w'. split; [exact Hjob|]. rewrite Hlog, Hnone. reflexivity.
  - intros token title body data w0.
    destruct (send_fcm_notification_total env token title body data w0)
      as (sent & w0' & Hsend & _).
    exists sent, w0'. exact Hsend.
Qed.

Lemma sends_are_independent_witness :
  reliable flaky (clock world3) 3 /\
  exists w' : World,
    celery_app.process_alert_task flaky 1 (Some 1%Z)
      "User is outside geofenced area" world3 = (Ok tt, w') /\
    log w' = [Committed T_alerts; SendAttempt "tok-1"; SendAttempt "tok-2";
              SendAttempt "tok-3"; SessionClosed].
Proof.
  assert (H1 : reliable flaky (clock world3) 3) by (intros k _; reflexivity).
  exact (conj H1
    (proj1 (sends_are_independent flaky 1 (Some 1%Z)
              "User is outside geofenced area" world3 H1))).
Defined.

(** ** Scenarios *)

(** Three devices, the second send fails: the first and the third are still
    attempted and one alert row is written. *)
Example three_devices_second_fails :
  exists w' : World,
    celery_app.process_alert_task flaky 1 (Some 1%Z)
      "User is outside geofenced area" world3 = (Ok tt, w') /\
    rows (alerts (db w'))
    = [Alert.mk 1 1 (Some 1%Z) "User is outside geofenced area" 1] /\
    log w' = [Committed T_alerts; SendAttempt "tok-1"; SendAttempt "tok-2";
              SendAttempt "tok-3"; SessionClosed] /\
    fst (notifications.send_fcm_notification flaky "tok-1" "Geofence Alert"
           "User is outside geofenced area" None world3) = Ok true /\
    fst (notifications.send_fcm_notification flaky "tok-2" "Geofence Alert"
           "User is outside geofenced area" None world3) = Ok false.
Proof.
  eexists. split; [reflexivity|]. repeat split.
Qed.

(** With MySQL unreachable the job fails at once: no alert row, no send. *)
Example job_fails_when_storage_is_down :
  celery_app.process_alert_task storage_down 1 (Some 1%Z)
    "User is outside geofenced area" world3
  = (Raise OperationalError, record SessionClosed (tick world3)).
Proof. reflexivity. Qed.

(** An update at the centre of the geofence: inside, distance 0, no alert,
    nothing published. *)
Example update_at_centre :
  exists w' : World,
    main.update_location calm at_home world1
    = (Ok (LocationCheckResult.mk true 0 false), w') /\
    broker w' = [].
Proof.
  rewrite (update_location_run calm at_home world1 (calm_reliable _ _)).
  simpl. rewrite GeoFacts.distance_same.
  assert (E : Geo.Rleb 0 100 = true) by (apply GeoFacts.Rleb_true; lra).
  rewrite E. simpl. eexists. split; reflexivity.
Qed.

(** A geofence of negative radius excludes even its own centre: the update
    is outside and a job is published. *)
Example negative_radius_alerts_at_centre :
  exists (gf : Geofence.t) (r : LocationCheckResult.t) (w' : World),
    (main.create_user calm (UserCreate.mk "alice") ;;
     gf <- main.create_geofence calm (GeofenceCreate.mk 1 10 10 (-5)) ;;
     r <- main.update_location calm at_home ;;
     ret (gf, r))%monad world0 = (Ok (gf, r), w') /\
    r = LocationCheckResult.mk false 0 true /\
    broker w' = [mkJob 1 (Some (Geofence.id gf)) "User is outside geofenced area"].
Proof.
  eexists. eexists. eexists.
  erewrite bind_ok by reflexivity.
  erewrite bind_ok by reflexivity.
  erewrite bind_ok.
  2:{ rewrite update_location_run by apply calm_reliable.
      simpl. rewrite GeoFacts.distance_same.
      assert (E : Geo.Rleb 0 (-5) = false) by (apply GeoFacts.Rleb_false; lra).
      rewrite E. simpl. reflexivity. }
  split; [reflexivity|]. split; reflexivity.
Qed.

(** ** More on the distance *)

Module GeoRange.
Import Geo.
Local Open Scope R_scope.


Lemma atan2_sin_cos (h : R) :
  0 <= h <= PI / 2 -> atan2 (sin h) (cos h) = h.
Proof.
  intros [H0 H1]. unfold atan2.
  pose proof PI_RGT_0 as Hpi.
  destruct H1 as [H1|H1].
  - assert (Hc : 0 < cos h) by (apply cos_gt_0; lra).
    destruct (Rlt_dec 0 (cos h)) as [_|Hn]; [|contradiction].
    change (sin h / cos h) with (tan h). apply atan_tan. lra.
  - subst h. rewrite cos_PI2, sin_PI2.
    destruct (Rlt_dec 0 0) as [Hn|_]; [lra|].
    destruct (Rlt_dec 0 1) as [_|Hn]; [reflexivity|lra].
Qed.

(** When the haversine term is [sin h ^ 2] for a half angle [h] between 0
    and a right angle, the distance is the arc of angle [2 * h]. *)
Lemma distance_of_half_angle (lat1 lon1 lat2 lon2 h : R) :
  0 <= h <= PI / 2 ->
  haversine_a lat1 lon1 lat2 lon2 = sin h ^ 2 ->
  distance lat1 lon1 lat2 lon2 = 6371000 * (2 * h).
Proof.
  intros Hh Ha. unfold distance. cbv zeta. rewrite Ha.
  pose proof PI_RGT_0 as Hpi.
  assert (Hs : 0 <= sin h) by (apply sin_ge_0; lra).
  assert (Hc : 0 <= cos h) by (apply cos_ge_0; lra).
  rewrite (sqrt_pow2 _ Hs).
  replace (1 - sin h ^ 2) with (cos h ^ 2).
  - rewrite (sqrt_pow2 _ Hc), (atan2_sin_cos h Hh). reflexivity.
  - pose proof (sin2_cos2 h) as E. unfold Rsqr in E. simpl. lra.
Qed.

Lemma sin_sq_radians_abs (x : R) :
  sin (radians (Rabs x) / 2) ^ 2 = sin (radians x / 2) ^ 2.
Proof.
  unfold Rabs. destruct (Rcase_abs x); [|reflexivity].
  replace (radians (- x) / 2) with (- (radians x / 2)) by (unfold radians; field).
  rewrite sin_neg. ring.
Qed.

Lemma radians_half_abs (x : R) :
  Rabs x <= 180 -> 0 <= radians (Rabs x) / 2 <= PI / 2.
Proof.
  intros H. pose proof (Rabs_pos x) as H0. pose proof PI_RGT_0 as Hpi.
  unfold radians. split.
  - apply Rmult_le_pos; [|lra]. apply Rmult_le_pos; lra.
  - replace (PI / 2) with (180 * (PI / 180) / 2) by field.
    apply Rmult_le_compat_r; [lra|]. apply Rmult_le_compat_r; lra.
Qed.

End GeoRange.


(** X2. Between two points of the same longitude at most 180 degrees of
    latitude apart, the distance is the length of the meridian arc. *)
Theorem haversine_along_meridian (lat1 lat2 lon : R) :
  (Rabs (lat2 - lat1) <= 180)%R ->
  Geo.haversine_distance_m lat1 lon lat2 lon
  = Ok (6371000 * Geo.radians (Rabs (lat2 - lat1)))%R.
Proof.
  intros H. rewrite GeoFacts.haversine_distance_m_ok. f_equal.
  rewrite (GeoRange.distance_of_half_angle lat1 lon lat2 lon
             (Geo.radians (Rabs (lat2 - lat1)) / 2)).
  - field.
  - apply GeoRange.radians_half_abs. exact H.
  - unfold Geo.haversine_a. cbv zeta.
    replace (Geo.radians (lon - lon) / 2)%R with 0%R
      by (unfold Geo.radians; field).
    rewrite sin_0, GeoRange.sin_sq_radians_abs. ring.
Qed.

Lemma haversine_along_meridian_witness :
  (Rabs (11 - 10) <= 180)%R /\
  Geo.haversine_distance_m 10 10 11 10
  = Ok (6371000 * Geo.radians (Rabs (11 - 10)))%R.
Proof.
  assert (H : (Rabs (11 - 10) <= 180)%R).
  { rewrite Rabs_pos_eq; lra. }
  exact (conj H (haversine_along_meridian 10 11 10 H)).
Defined.

(** X3. Between two points of the equator at most 180 degrees of longitude
    apart, the distance is the length of the equator arc; one degree is
    [6371000 * PI / 180] metres. *)
Theorem haversine_along_equator (lon1 lon2 : R) :
  (Rabs (lon2 - lon1) <= 180)%R ->
  Geo.haversine_distance_m 0 lon1 0 lon2
  = Ok (6371000 * Geo.radians (Rabs (lon2 - lon1)))%R.
Proof.
  intros H. rewrite GeoFacts.haversine_distance_m_ok. f_equal.
  rewrite (GeoRange.distance_of_half_angle 0 lon1 0 lon2
             (Geo.radians (Rabs (lon2 - lon1)) / 2)).
  - field.
  - apply GeoRange.radians_half_abs. exact H.
  - unfold Geo.haversine_a. cbv zeta.
    replace (Geo.radians (0 - 0) / 2)%R with 0%R by (unfold Geo.radians; field).
    replace (Geo.radians 0)%R with 0%R by (unfold Geo.radians; field).
    rewrite sin_0, cos_0, GeoRange.sin_sq_radians_abs. ring.
Qed.

Lemma haversine_along_equator_witness :
  (Rabs (1 - 0) <= 180)%R /\
  Geo.haversine_distance_m 0 0 0 1
  = Ok (6371000 * Geo.radians (Rabs (1 - 0)))%R.
Proof.
  assert (H : (Rabs (1 - 0) <= 180)%R).
  { rewrite Rabs_pos_eq; lra. }
  exact (conj H (haversine_along_equator 0 1 H)).
Defined.

(** X4. Longitudes are taken modulo a full turn: adding 360 degrees to one
    of them does not change the distance. *)
Theorem haversine_longitude_period (lat1 lon1 lat2 lon2 : R) :
  Geo.haversine_distance_m lat1 lon1 lat2 (lon2 + 360)
  = Geo.haversine_distance_m lat1 lon1 lat2 lon2.
Proof.
  rewrite !GeoFacts.haversine_distance_m_ok. f_equal.
  unfold Geo.distance. cbv zeta.
  assert (E : Geo.haversine_a lat1 lon1 lat2 (lon2 + 360)
              = Geo.haversine_a lat1 lon1 lat2 lon2).
  { unfold Geo.haversine_a. cbv zeta.
    replace (Geo.radians (lon2 + 360 - lon1) / 2)%R
      with (Geo.radians (lon2 - lon1) / 2 + PI)%R
      by (unfold Geo.radians; field).
    rewrite neg_sin. ring. }
  rewrite E. reflexivity.
Qed.

(** ** Reasoning about every run, faults included *)

Section Keeps.
Variable P : World -> World -> Prop.
Hypothesis P_refl : forall w, P w w.
Hypothesis P_trans : forall w1 w2 w3, P w1 w2 -> P w2 w3 -> P w1 w3.

Lemma keeps_ret {A : Type} (a : A) (w : World) : keeps P (ret a) w.
Proof. apply P_refl. Qed.

Lemma keeps_raise {A : Type} (e : exn) (w : World) : keeps P (@raise A e) w.
Proof. apply P_refl. Qed.

Lemma keeps_lift {A : Type} (r : result A) (w : World) : keeps P (lift r) w.
Proof. apply P_refl. Qed.

Lemma keeps_bind {A B : Type} (m : M A) (k : A -> M B) (w : World) :
  keeps P m w ->
  (forall a w1, m w = (Ok a, w1) -> keeps P (k a) w1) ->
  keeps P (bind m k) w.
Proof.
  unfold keeps, bind. intros Hm Hk.
  destruct (m w) as [[a|e] w1] eqn:E; simpl in *.
  - eapply P_trans; [exact Hm|]. apply (Hk a w1 eq_refl).
  - exact Hm.
Qed.



Variable env : Env.
Hypothesis P_tick : forall w, P w (tick w).

Lemma keeps_round_trip (w : World) : keeps P (Session.round_trip env) w.
Proof.
  unfold keeps, Session.round_trip. destruct (raises env (clock w)); apply P_tick.
Qed.


Lemma keeps_query {A : Type} (q : Db -> A) (w : World) :
  keeps P (Session.query env q) w.
Proof.
  unfold keeps, Session.query, bind, Session.round_trip.
  destruct (raises env (clock w)); apply P_tick.
Qed.

Lemma keeps_commit {A : Type} (t : table_name) (tx : nat -> Db -> Db * A)
    (w : World) :
  P (tick w)
    (record (Committed t) (set_db (fst (tx (S (clock w)) (db w))) (tick w))) ->
  keeps P (Session.commit env t tx) w.
Proof.
  intros H. unfold keeps, Session.commit, bind, Session.round_trip.
  destruct (raises env (clock w)); simpl; [apply P_tick|].
  destruct (tx (S (clock w)) (db w)) as [d a] eqn:E. simpl in *.
  eapply P_trans; [apply P_tick|exact H].
Qed.
End Keeps.


Lemma query_inv {A : Type} (env : Env) (q : Db -> A) (w w1 : World) (a : A) :
  Session.query env q w = (Ok a, w1) ->
  raises env (clock w) = false /\ a = q (db w) /\ w1 = tick w.
Proof.
  unfold Session.query, bind, Session.round_trip.
  destruct (raises env (clock w)); intros H.
  - discriminate.
  - injection H as <- <-. repeat split.
Qed.

Lemma commit_inv {A : Type} (env : Env) (t : table_name)
    (tx : nat -> Db -> Db * A) (w w1 : World) (a : A) :
  Session.commit env t tx w = (Ok a, w1) ->
  raises env (clock w) = false /\
  a = snd (tx (S (clock w)) (db w)) /\
  w1 = record (Committed t) (set_db (fst (tx (S (clock w)) (db w))) (tick w)).
Proof.
  unfold Session.commit, bind, Session.round_trip.
  destruct (raises env (clock w)); intros H.
  - discriminate.
  - simpl in H. destruct (tx (S (clock w)) (db w)) as [d a'].
    injection H as <- <-. repeat split.
Qed.

(** ** The persistence layer, for every run *)

Section KeepsCrud.
Variable P : World -> World -> Prop.
Hypothesis P_refl : forall w, P w w.
Hypothesis P_trans : forall w1 w2 w3, P w1 w2 -> P w2 w3 -> P w1 w3.
Variable env : Env.
Hypothesis P_tick : forall w, P w (tick w).

Lemma keeps_get_user (user_id : Z) (w : World) :
  keeps P (crud.get_user env user_id) w.
Proof. apply keeps_query. exact P_tick. Qed.

Lemma keeps_get_user_geofences (user_id : Z) (w : World) :
  keeps P (crud.get_user_geofences env user_id) w.
Proof. apply keeps_query. exact P_tick. Qed.


(** A commit followed by a refresh: only the commit matters. *)
Lemma keeps_commit_refresh {A : Type} (t : table_name)
    (tx : nat -> Db -> Db * A) (w : World) :
  P (tick w)
    (record (Committed t) (set_db (fst (tx (S (clock w)) (db w))) (tick w))) ->
  keeps P (bind (Session.commit env t tx)
             (fun a => bind (Session.refresh env) (fun _ => ret a))) w.
Proof.
  intros H. apply (keeps_bind P P_trans).
  - apply (keeps_commit P P_trans env P_tick). exact H.
  - intros a w1 _. apply (keeps_bind P P_trans).
    + apply keeps_round_trip. exact P_tick.
    + intros _ w2 _. apply keeps_ret. exact P_refl.
Qed.

Lemma keeps_upsert_user_location (location : LocationUpdate.t) (w : World) :
  P (tick (tick w))
    (record (Committed T_user_locations)
       (set_db (fst (crud.pending_location
                       (existing_location (LocationUpdate.user_id location) (db w))
                       location (db w)))
               (tick (tick w)))) ->
  keeps P (crud.upsert_user_location env location) w.
Proof.
  intros H. unfold crud.upsert_user_location.
  apply (keeps_bind P P_trans); [apply keeps_query; exact P_tick|].
  intros existing w1 Hq. apply query_inv in Hq. destruct Hq as (_ & -> & ->).
  apply keeps_commit_refresh. exact H.
Qed.






End KeepsCrud.

Lemma only_locations_differ_refl (w : World) : only_locations_differ w w.
Proof. repeat split. Qed.

Lemma only_locations_differ_trans (w1 w2 w3 : World) :
  only_locations_differ w1 w2 -> only_locations_differ w2 w3 ->
  only_locations_differ w1 w3.
Proof.
  intros (A1 & A2 & A3 & A4) (B1 & B2 & B3 & B4).
  repeat split; etransitivity; eassumption.
Qed.

Lemma only_locations_differ_tick (w : World) : only_locations_differ w (tick w).
Proof. repeat split. Qed.

(** X5. Whatever the storage and the broker do, a location update leaves
    the users, the geofences, the alerts and the devices as they were: the only
    table it can change is [user_locations]. *)
Theorem update_location_changes_only_locations
    (env : Env) (location : LocationUpdate.t) (w : World) :
  let w' := snd (main.update_location env location w) in
  users (db w') = users (db w) /\ geofences (db w') = geofences (db w) /\
  alerts (db w') = alerts (db w) /\ devices (db w') = devices (db w).
Proof.
  change (keeps only_locations_differ (main.update_location env location) w).
  pose proof only_locations_differ_refl as R.
  pose proof only_locations_differ_trans as T.
  pose proof only_locations_differ_tick as K.
  unfold main.update_location.
  apply (keeps_bind _ T); [apply keeps_get_user; exact K|].
  intros [u|] w1 _; [|apply keeps_raise; exact R].
  apply (keeps_bind _ T).
  { apply (keeps_upsert_user_location _ R T env K).
    apply (pending_location_frame _ location (db w1)). }
  intros _ w2 _.
  apply (keeps_bind _ T); [apply keeps_get_user_geofences; exact K|].
  intros [|gf rest] w3 _; [apply keeps_raise; exact R|].
  apply (keeps_bind _ T); [apply keeps_lift; exact R|].
  intros distance w4 _.
  apply (keeps_bind _ T); [|intros; apply keeps_ret; exact R].
  destruct (negb _); [|apply keeps_ret; exact R].
  unfold celery_app.delay.
  apply (keeps_bind _ T); [apply keeps_round_trip; exact K|].
  intros _ w5 _. repeat split.
Qed.

(** ** The user guard *)

Lemma guard_rejects {A : Type} (env : Env) (user_id : Z) (k : M A) (w : World) :
  find (fun u => User.id u =? user_id)%Z (rows (users (db w))) = None ->
  let m := bind (crud.get_user env user_id)
             (fun db_user =>
                match db_user with
                | None => raise (HTTPException 404 "User not found")
                | Some _ => k
                end) in
  untouched w (snd (m w)) /\
  (raises env (clock w) = false ->
   fst (m w) = Raise (HTTPException 404 "User not found")).
Proof.
  intros Hnone. unfold crud.get_user, Session.query, bind, Session.round_trip, raise.
  cbv zeta. destruct (raises env (clock w)); simpl.
  - split; [repeat split|discriminate].
  - rewrite Hnone. split; [repeat split|reflexivity].
Qed.

(** X6. Every handler that takes a user id rejects an unknown user: the
    answer is 404 whenever the lookup itself works, and in every case the
    database, the broker and the history are left as they were. *)
Theorem unknown_user_is_rejected (env : Env) (w : World) (user_id : Z) :
  find (fun u => User.id u =? user_id)%Z (rows (users (db w))) = None ->
  (forall (lat lon : R),
     let m := main.update_location env (LocationUpdate.mk user_id lat lon) in
     untouched w (snd (m w)) /\
     (raises env (clock w) = false ->
      fst (m w) = Raise (HTTPException 404 "User not found"))) /\
  (forall (center_lat center_lon radius_m : R),
     let m := main.create_geofence env
                (GeofenceCreate.mk user_id center_lat center_lon radius_m) in
     untouched w (snd (m w)) /\
     (raises env (clock w) = false ->
      fst (m w) = Raise (HTTPException 404 "User not found"))) /\
  (forall (platform fcm_token : string),
     let m := main.register_device env
                (DeviceRegister.mk user_id platform fcm_token) in
     untouched w (snd (m w)) /\
     (raises env (clock w) = false ->
      fst (m w) = Raise (HTTPException 404 "User not found"))) /\
  (forall (limit : Z),
     let m := main.list_user_alerts env user_id limit in
     untouched w (snd (m w)) /\
     (raises env (clock w) = false ->
      fst (m w) = Raise (HTTPException 404 "User not found"))).
Proof.
  intros Hnone. split; [|split; [|split]]; intros;
    exact (guard_rejects env user_id _ w Hnone).
Qed.

Lemma unknown_user_is_rejected_witness :
  find (fun u => User.id u =? 7)%Z (rows (users (db world1))) = None /\
  main.list_user_alerts calm 7 100 world1
  = (Raise (HTTPException 404 "User not found"), tick world1).
Proof.
  assert (H : find (fun u => User.id u =? 7)%Z (rows (users (db world1))) = None)
    by reflexivity.
  split; [exact H|].
  pose proof (proj2 (proj2 (proj2 (unknown_user_is_rejected calm world1 7 H))) 100%Z)
    as [_ Hres].
  specialize (Hres eq_refl).
  destruct (main.list_user_alerts calm 7 100 world1) as [r w'] eqn:E.
  simpl in Hres. subst r. f_equal.
  apply (f_equal snd) in E. simpl in E. subst w'. reflexivity.
Defined.

(** ** Handlers in sequence *)

Lemma reliable_shift (env : Env) (start len k len' : nat) :
  (k + len' <= len)%nat -> reliable env start len -> reliable env (k + start) len'.
Proof.
  intros Hle H j Hj. replace (k + start + j)%nat with (start + (k + j))%nat by lia.
  apply H. lia.
Qed.








(** ** Lookups after an insert *)



Lemma find_none_iff {A : Type} (p : A -> bool) (l : list A) :
  find p l = None <-> (forall x, In x l -> p x = false).
Proof.
  induction l as [|y l IH]; simpl.
  - split; [intros _ x []|reflexivity].
  - destruct (p y) eqn:E.
    + split; [discriminate|]. intros H. rewrite (H y) in E by (left; reflexivity).
      discriminate.
    + rewrite IH. split.
      * intros H x [<-|Hx]; [exact E|apply H; exact Hx].
      * intros H x Hx. apply H. right. exact Hx.
Qed.




(** ** Device registration *)

Lemma update_owner_tokens (pk user_id : Z) (platform : string) (l : list Device.t) :
  map Device.fcm_token (crud.update_owner pk user_id platform l)
  = map Device.fcm_token l.
Proof.
  unfold crud.update_owner. rewrite map_map. apply map_ext.
  intros r. destruct (Device.id r =? pk)%Z; reflexivity.
Qed.

Lemma update_owner_ids (pk user_id : Z) (platform : string) (l : list Device.t) :
  map Device.id (crud.update_owner pk user_id platform l) = map Device.id l.
Proof.
  unfold crud.update_owner. rewrite map_map. apply map_ext.
  intros r. destruct (Device.id r =? pk)%Z; reflexivity.
Qed.

Lemma filter_none {A : Type} (p : A -> bool) (l : list A) :
  find p l = None -> filter p l = [].
Proof.
  induction l as [|x l IH]; simpl; [reflexivity|].
  destruct (p x); [discriminate|exact IH].
Qed.

(** With unique tokens, the device found for a token is the only one that
    carries it. *)
Lemma unique_token_filter (token : string) (l : list Device.t) (e : Device.t) :
  NoDup (map Device.fcm_token l) ->
  find (fun v => (Device.fcm_token v =? token)%string) l = Some e ->
  filter (fun v => (Device.fcm_token v =? token)%string) l = [e].
Proof.
  induction l as [|x l IH]; simpl; intros Hnd Hfind; [discriminate|].
  inversion Hnd as [|? ? Hnotin Hnd']; subst.
  destruct (Device.fcm_token x =? token)%string eqn:E.
  - injection Hfind as <-. f_equal.
    apply String.eqb_eq in E.
    destruct (find (fun v => (Device.fcm_token v =? token)%string) l) as [y|] eqn:F.
    + exfalso. apply Hnotin. apply find_some in F. destruct F as [Hy Ey].
      apply String.eqb_eq in Ey. rewrite E, <- Ey. apply in_map. exact Hy.
    + apply filter_none. exact F.
  - apply IH; assumption.
Qed.

Lemma crud_register_device_ok (env : Env) (device : DeviceRegister.t) (w : World) :
  reliable env (clock w) 3 ->
  let t := devices (db w) in
  crud.register_device env device w =
  match find (fun v => (Device.fcm_token v =? DeviceRegister.fcm_token device)%string)
             (rows t) with
  | Some e =>
      (Ok (Device.mk (Device.id e) (DeviceRegister.user_id device)
             (DeviceRegister.platform device) (Device.fcm_token e)),
       tick (record (Committed T_devices)
         (set_db (set_devices
                    {| rows := crud.update_owner (Device.id e)
                                 (DeviceRegister.user_id device)
                                 (DeviceRegister.platform device) (rows t);
                       next_id := next_id t |} (db w))
                 (tick (tick w)))))
  | None =>
      let row := Device.mk (next_id t) (DeviceRegister.user_id device)
                   (DeviceRegister.platform device)
                   (DeviceRegister.fcm_token device) in
      (Ok row,
       tick (record (Committed T_devices)
         (set_db (set_devices
                    {| rows := rows t ++ [row]; next_id := next_id t + 1 |} (db w))
                 (tick (tick w)))))
  end.
Proof.
  intros Hrel t. subst t. unfold crud.register_device, Session.refresh.
  run_io Hrel.
  destruct (find _ (rows (devices (db w)))) as [e|].
  - run_io Hrel. run_io Hrel. reflexivity.
  - run_io Hrel. run_io Hrel. reflexivity.
Qed.

Lemma main_register_device_spec
    (env : Env) (w : World) (device : DeviceRegister.t) (u : User.t) :
  let has_token := fun v => (Device.fcm_token v =? DeviceRegister.fcm_token device)%string in
  reliable env (clock w) 4 ->
  find (fun u => User.id u =? DeviceRegister.user_id device)%Z
       (rows (users (db w))) = Some u ->
  NoDup (map Device.fcm_token (rows (devices (db w)))) ->
  exists (row : Device.t) (w' : World),
    main.register_device env device w = (Ok row, w') /\
    Device.user_id row = DeviceRegister.user_id device /\
    Device.platform row = DeviceRegister.platform device /\
    Device.fcm_token row = DeviceRegister.fcm_token device /\
    filter has_token (rows (devices (db w'))) = [row] /\
    NoDup (map Device.fcm_token (rows (devices (db w')))) /\
    match find has_token (rows (devices (db w))) with
    | Some e =>
        Device.id row = Device.id e /\
        List.length (rows (devices (db w'))) = List.length (rows (devices (db w)))
    | None => rows (devices (db w')) = rows (devices (db w)) ++ [row]
    end.
Proof.
  intros has_token Hrel Huser Hnd. subst has_token. unfold main.register_device.
  erewrite bind_ok by (apply get_user_ok; exact (reliable_head _ _ _ Hrel)).
  apply reliable_tail in Hrel. rewrite Huser.
  rewrite (crud_register_device_ok env device (tick w) Hrel). cbv zeta.
  change (db (tick w)) with (db w).
  destruct (find _ (rows (devices (db w)))) as [e|] eqn:F.
  - pose proof (find_some _ _ F) as [Hin Htok].
    apply String.eqb_eq in Htok.
    eexists. eexists. split; [reflexivity|]. simpl.
    split; [reflexivity|]. split; [reflexivity|]. split; [exact Htok|].
    split; [|split; [|split]].
    + unfold crud.update_owner. rewrite filter_map_stable.
      * rewrite (unique_token_filter _ _ e Hnd F). simpl.
        rewrite Z.eqb_refl. reflexivity.
      * intros x. destruct (Device.id x =? Device.id e)%Z; reflexivity.
    + rewrite update_owner_tokens. exact Hnd.
    + reflexivity.
    + unfold crud.update_owner. apply length_map.
  - eexists. eexists. split; [reflexivity|]. simpl.
    split; [reflexivity|]. split; [reflexivity|]. split; [reflexivity|].
    split; [|split; [|reflexivity]].
    + rewrite filter_app, (filter_none _ _ F). simpl.
      rewrite String.eqb_refl. reflexivity.
    + rewrite map_app. simpl.
      apply (NoDup_Add (a := DeviceRegister.fcm_token device)
                       (l := map Device.fcm_token (rows (devices (db w))))).
      * replace (map Device.fcm_token (rows (devices (db w))))
          with (map Device.fcm_token (rows (devices (db w))) ++ []) at 1
          by apply app_nil_r.
        apply Add_app.
      * split; [exact Hnd|]. intros Hin. apply in_map_iff in Hin.
        destruct Hin as (v & Ev & Hv).
        rewrite find_none_iff in F. specialize (F v Hv). simpl in F.
        rewrite Ev, String.eqb_refl in F. discriminate.
Qed.

(** X10. Registration is an upsert keyed by the token.  Starting from
    unique tokens, registering a device for an existing user leaves exactly one
    device with that token, owned by that user with the given platform, and
    tokens stay unique.  A known token keeps its device id and the table does
    not grow (the device moves to the new owner); a new token adds one row. *)
Theorem register_device_upsert
    (env : Env) (w : World) (device : DeviceRegister.t) (u : User.t) :
  let has_token := fun v => (Device.fcm_token v =? DeviceRegister.fcm_token device)%string in
  reliable env (clock w) 4 ->
  find (fun u => User.id u =? DeviceRegister.user_id device)%Z
       (rows (users (db w))) = Some u ->
  NoDup (map Device.fcm_token (rows (devices (db w)))) ->
  exists (row : Device.t) (w' : World),
    main.register_device env device w = (Ok row, w') /\
    Device.user_id row = DeviceRegister.user_id device /\
    Device.platform row = DeviceRegister.platform device /\
    Device.fcm_token row = DeviceRegister.fcm_token device /\
    filter has_token (rows (devices (db w'))) = [row] /\
    NoDup (map Device.fcm_token (rows (devices (db w')))) /\
    match find has_token (rows (devices (db w))) with
    | Some e =>
        Device.id row = Device.id e /\
        List.length (rows (devices (db w'))) = List.length (rows (devices (db w)))
    | None => rows (devices (db w')) = rows (devices (db w)) ++ [row]
    end.
Proof.
  exact (main_register_device_spec env w device u).
Qed.


Lemma register_device_upsert_witness :
  exists (row : Device.t) (w' : World),
    main.register_device calm (DeviceRegister.mk 2 "ios" "tok-2") world_devices
    = (Ok row, w') /\
    Device.user_id row = 2%Z /\
    Device.platform row = "ios" /\
    Device.fcm_token row = "tok-2" /\
    filter (fun v => (Device.fcm_token v =? "tok-2")%string)
           (rows (devices (db w'))) = [row] /\
    NoDup (map Device.fcm_token (rows (devices (db w')))) /\
    Device.id row = 2%Z /\
    List.length (rows (devices (db w'))) = 2%nat.
Proof.
  assert (Hnd : NoDup (map Device.fcm_token (rows (devices (db world_devices))))).
  { simpl. repeat constructor; simpl; intuition discriminate. }
  exact (register_device_upsert calm world_devices
           (DeviceRegister.mk 2 "ios" "tok-2") (User.mk 2 "bob")
           (fun k _ => eq_refl) eq_refl Hnd).
Defined.

(** ** The job against the registered devices *)

(** The job under reliable storage: the alert is written and every device
    of the user gets one attempt. *)
Lemma process_alert_task_ok (env : Env) (user_id : Z) (geofence_id : option Z)
    (message : string) (w : World) :
  reliable env (clock w) 3 ->
  exists w' : World,
    celery_app.process_alert_task env user_id geofence_id message w = (Ok tt, w') /\
    db w' = db (alert_committed user_id geofence_id message w) /\
    broker w' = broker w /\
    log w' = log w ++ Committed T_alerts
                   :: map (fun d => SendAttempt (Device.fcm_token d))
                        (filter (fun v => Device.user_id v =? user_id)%Z
                                (rows (devices (db w))))
                   ++ [SessionClosed].
Proof.
  intros Hrel. unfold celery_app.process_alert_task.
  pose proof (create_alert_run env user_id geofence_id message w) as Hrun.
  rewrite (reliable_head _ _ _ Hrel) in Hrun. apply reliable_tail in Hrel.
  rewrite (reliable_head _ _ _ Hrel) in Hrun. apply reliable_tail in Hrel.
  set (w1 := tick (alert_committed user_id geofence_id message w)) in *.
  destruct (notify_all_devices env
              (filter (fun v => Device.user_id v =? user_id)%Z
                      (rows (devices (db w))))
              "Geofence Alert" message
              (Some [("alert_id", Alert.id (new_alert user_id geofence_id message w));
                     ("user_id", user_id);
                     ("geofence_id", celery_app.or_0 geofence_id)])
              (tick w1))
    as (w2 & Hloop & Hdb & Hbroker & Hlog).
  exists (record SessionClosed w2). split.
  - apply try_finally_close. erewrite bind_ok by exact Hrun.
    erewrite bind_ok
      by (apply get_devices_for_user_ok; exact (reliable_head _ _ _ Hrel)).
    exact Hloop.
  - split; [exact Hdb|]. split; [exact Hbroker|].
    simpl. rewrite Hlog. simpl. rewrite <- !app_assoc. reflexivity.
Qed.

(** X11. A registered device is reached by the next alert: after a
    successful registration, a job for the same user attempts a send to the
    registered token. *)
Theorem registered_device_is_notified
    (env : Env) (w : World) (device : DeviceRegister.t) (u : User.t)
    (geofence_id : option Z) (message : string) :
  reliable env (clock w) 7 ->
  find (fun u => User.id u =? DeviceRegister.user_id device)%Z
       (rows (users (db w))) = Some u ->
  NoDup (map Device.fcm_token (rows (devices (db w)))) ->
  exists (row : Device.t) (w1 w2 : World) (new : list event),
    main.register_device env device w = (Ok row, w1) /\
    celery_app.process_alert_task env (DeviceRegister.user_id device)
      geofence_id message w1 = (Ok tt, w2) /\
    log w2 = log w1 ++ new /\
    In (SendAttempt (DeviceRegister.fcm_token device)) new.
Proof.
  intros Hrel Huser Hnd.
  destruct (main_register_device_spec env w device u
              (reliable_weaken env _ 7 4 ltac:(lia) Hrel) Huser Hnd)
    as (row & w1 & Hreg & Hu & _ & Htok & Hfilter & _).
  assert (Hclock : clock w1 = (4 + clock w)%nat).
  { unfold main.register_device in Hreg.
    erewrite bind_ok in Hreg
      by (apply get_user_ok; exact (reliable_head _ _ _ Hrel)).
    rewrite Huser in Hreg.
    rewrite (crud_register_device_ok env device (tick w)) in Hreg
      by (apply (reliable_shift env (clock w) 7 1 3); [lia|exact Hrel]).
    cbv zeta in Hreg.
    destruct (find _ (rows (devices (db (tick w)))));
      injection Hreg as _ <-; reflexivity. }
  destruct (process_alert_task_ok env (DeviceRegister.user_id device)
              geofence_id message w1) as (w2 & Hjob & _ & _ & Hlog).
  { rewrite Hclock. apply (reliable_shift env (clock w) 7 4 3); [lia|exact Hrel]. }
  exists row, w1, w2. eexists. split; [exact Hreg|]. split; [exact Hjob|].
  split; [exact Hlog|].
  right. apply in_or_app. left. apply in_map_iff. exists row.
  split; [rewrite Htok; reflexivity|].
  apply filter_In. split; [|rewrite Hu; apply Z.eqb_refl].
  assert (Hin : In row (filter
            (fun v => (Device.fcm_token v =? DeviceRegister.fcm_token device)%string)
            (rows (devices (db w1))))) by (rewrite Hfilter; left; reflexivity).
  apply filter_In in Hin. apply Hin.
Qed.

Lemma registered_device_is_notified_witness :
  exists (row : Device.t) (w1 w2 : World) (new : list event),
    main.register_device calm (DeviceRegister.mk 2 "web" "tok-9") world_devices
    = (Ok row, w1) /\
    celery_app.process_alert_task calm 2 None "User is outside geofenced area" w1
    = (Ok tt, w2) /\
    log w2 = log w1 ++ new /\
    In (SendAttempt "tok-9") new.
Proof.
  assert (Hnd : NoDup (map Device.fcm_token (rows (devices (db world_devices))))).
  { simpl. repeat constructor; simpl; intuition discriminate. }
  exact (registered_device_is_notified calm world_devices
           (DeviceRegister.mk 2 "web" "tok-9") (User.mk 2 "bob") None
           "User is outside geofenced area"
           (fun k _ => eq_refl) eq_refl Hnd).
Defined.

(** X12. The last registration wins: once a token is registered for a
    user, a job for any other user attempts no send to that token, even if
    the token belonged to that other user before. *)
Theorem reassigned_token_leaves_previous_owner
    (env : Env) (w : World) (device : DeviceRegister.t) (u : User.t)
    (other : Z) (geofence_id : option Z) (message : string) :
  reliable env (clock w) 7 ->
  find (fun u => User.id u =? DeviceRegister.user_id device)%Z
       (rows (users (db w))) = Some u ->
  NoDup (map Device.fcm_token (rows (devices (db w)))) ->
  other <> DeviceRegister.user_id device ->
  exists (row : Device.t) (w1 w2 : World) (new : list event),
    main.register_device env device w = (Ok row, w1) /\
    celery_app.process_alert_task env other geofence_id message w1 = (Ok tt, w2) /\
    log w2 = log w1 ++ new /\
    ~ In (SendAttempt (DeviceRegister.fcm_token device)) new.
Proof.
  intros Hrel Huser Hnd Hother.
  destruct (main_register_device_spec env w device u
              (reliable_weaken env _ 7 4 ltac:(lia) Hrel) Huser Hnd)
    as (row & w1 & Hreg & Hu & _ & Htok & Hfilter & _).
  assert (Hclock : clock w1 = (4 + clock w)%nat).
  { unfold main.register_device in Hreg.
    erewrite bind_ok in Hreg
      by (apply get_user_ok; exact (reliable_head _ _ _ Hrel)).
    rewrite Huser in Hreg.
    rewrite (crud_register_device_ok env device (tick w)) in Hreg
      by (apply (reliable_shift env (clock w) 7 1 3); [lia|exact Hrel]).
    cbv zeta in Hreg.
    destruct (find _ (rows (devices (db (tick w)))));
      injection Hreg as _ <-; reflexivity. }
  destruct (process_alert_task_ok env other geofence_id message w1)
    as (w2 & Hjob & _ & _ & Hlog).
  { rewrite Hclock. apply (reliable_shift env (clock w) 7 4 3); [lia|exact Hrel]. }
  exists row, w1, w2. eexists. split; [exact Hreg|]. split; [exact Hjob|].
  split; [exact Hlog|].
  intros [Hbad|Hbad]; [discriminate|].
  apply in_app_or in Hbad. destruct Hbad as [Hbad|[Hbad|[]]]; [|discriminate].
  apply in_map_iff in Hbad. destruct Hbad as (v & Ev & Hv).
  injection Ev as Ev. apply filter_In in Hv. destruct Hv as [Hv Hown].
  apply Z.eqb_eq in Hown.
  assert (Hin : In v (filter
            (fun v => (Device.fcm_token v =? DeviceRegister.fcm_token device)%string)
            (rows (devices (db w1))))).
  { apply filter_In. split; [exact Hv|]. rewrite Ev. apply String.eqb_refl. }
  rewrite Hfilter in Hin. destruct Hin as [<-|[]]. congruence.
Qed.

Lemma reassigned_token_leaves_previous_owner_witness :
  exists (row : Device.t) (w1 w2 : World) (new : list event),
    main.register_device calm (DeviceRegister.mk 2 "ios" "tok-2") world_devices
    = (Ok row, w1) /\
    celery_app.process_alert_task calm 1 None "User is outside geofenced area" w1
    = (Ok tt, w2) /\
    log w2 = log w1 ++ new /\
    ~ In (SendAttempt "tok-2") new.
Proof.
  assert (Hnd : NoDup (map Device.fcm_token (rows (devices (db world_devices))))).
  { simpl. repeat constructor; simpl; intuition discriminate. }
  assert (Hother : 1%Z <> DeviceRegister.user_id (DeviceRegister.mk 2 "ios" "tok-2"))
    by discriminate.
  exact (reassigned_token_leaves_previous_owner calm world_devices
           (DeviceRegister.mk 2 "ios" "tok-2") (User.mk 2 "bob") 1 None
           "User is outside geofenced area"
           (fun k _ => eq_refl) eq_refl Hnd Hother).
Defined.

(** ** Listing alerts *)

Lemma insert_newest_first_perm (a : Alert.t) (l : list Alert.t) :
  Permutation (crud.insert_newest_first a l) (a :: l).
Proof.
  induction l as [|b l IH]; simpl; [reflexivity|].
  destruct (Alert.created_at b <? Alert.created_at a)%nat; [reflexivity|].
  rewrite IH. apply perm_swap.
Qed.

Lemma order_by_created_at_desc_perm (l : list Alert.t) :
  Permutation (crud.order_by_created_at_desc l) l.
Proof.
  induction l as [|a l IH]; simpl; [reflexivity|].
  rewrite insert_newest_first_perm. apply perm_skip. exact IH.
Qed.

Lemma insert_newest_first_sorted (a : Alert.t) (l : list Alert.t) :
  newest_first l -> newest_first (crud.insert_newest_first a l).
Proof.
  unfold newest_first. induction 1 as [|b l Hs IH Hall]; simpl.
  - repeat constructor.
  - destruct (Alert.created_at b <? Alert.created_at a)%nat eqn:E.
    + apply Nat.ltb_lt in E. constructor.
      * constructor; assumption.
      * constructor; [lia|]. eapply Forall_impl; [|exact Hall].
        simpl. intros c Hc. lia.
    + apply Nat.ltb_ge in E. constructor; [exact IH|].
      rewrite Forall_forall in *. intros c Hc.
      apply (Permutation_in _ (insert_newest_first_perm a l)) in Hc.
      destruct Hc as [<-|Hc]; [exact E|apply Hall; exact Hc].
Qed.

Lemma order_by_created_at_desc_sorted (l : list Alert.t) :
  newest_first (crud.order_by_created_at_desc l).
Proof.
  induction l as [|a l IH]; simpl; [constructor|].
  apply insert_newest_first_sorted. exact IH.
Qed.

Lemma in_firstn {A : Type} (k : nat) (l : list A) (x : A) :
  In x (firstn k l) -> In x l.
Proof.
  intros H. rewrite <- (firstn_skipn k l). apply in_or_app. left. exact H.
Qed.

Lemma in_skipn {A : Type} (k : nat) (l : list A) (x : A) :
  In x (skipn k l) -> In x l.
Proof.
  intros H. rewrite <- (firstn_skipn k l). apply in_or_app. right. exact H.
Qed.

Lemma newest_first_split (k : nat) (l : list Alert.t) :
  newest_first l ->
  newest_first (firstn k l) /\
  (forall a b, In a (firstn k l) -> In b (skipn k l) ->
               (Alert.created_at b <= Alert.created_at a)%nat).
Proof.
  unfold newest_first. intros Hs. revert k.
  induction Hs as [|x l Hs IH Hall]; intros k.
  - rewrite firstn_nil, skipn_nil. split; [constructor|intros a b []].
  - destruct k as [|k]; simpl.
    + split; [constructor|intros a b []].
    + destruct (IH k) as [IH1 IH2]. rewrite Forall_forall in Hall. split.
      * constructor; [exact IH1|]. apply Forall_forall. intros c Hc.
        apply Hall. apply (in_firstn k). exact Hc.
      * intros a b [<-|Ha] Hb.
        -- apply Hall. apply (in_skipn k). exact Hb.
        -- apply IH2; assumption.
Qed.

(** What [.order_by(created_at.desc()).limit(limit).all()] returns for a
    limit that is not negative. *)
Lemma newest_limited (limit : Z) (l : list Alert.t) (w : World) :
  (0 <= limit)%Z ->
  let listed := firstn (Z.to_nat limit) (crud.order_by_created_at_desc l) in
  let older := skipn (Z.to_nat limit) (crud.order_by_created_at_desc l) in
  crud.limit_all limit (crud.order_by_created_at_desc l) w = (Ok listed, w) /\
  Permutation (listed ++ older) l /\
  List.length listed = Nat.min (Z.to_nat limit) (List.length l) /\
  newest_first listed /\
  (forall a b, In a listed -> In b older ->
               (Alert.created_at b <= Alert.created_at a)%nat).
Proof.
  intros Hlimit listed older. subst listed older. split.
  - unfold crud.limit_all. destruct (limit <? 0)%Z eqn:E; [|reflexivity].
    apply Z.ltb_lt in E. lia.
  - split; [rewrite firstn_skipn; apply order_by_created_at_desc_perm|].
    split.
    + rewrite length_firstn.
      rewrite (Permutation_length (order_by_created_at_desc_perm l)). reflexivity.
    + apply newest_first_split. apply order_by_created_at_desc_sorted.
Qed.

(** X13. Listing a user's alerts with a limit that is not negative returns
    the user's newest alerts, newest first: the answer and the alerts left out
    together are exactly the user's alerts, the answer has [limit] entries (or
    all of them when there are fewer), and nothing left out is newer than
    anything listed. *)
Theorem list_user_alerts_newest
    (env : Env) (w : World) (user_id limit : Z) (u : User.t) :
  let mine := filter (fun a => Alert.user_id a =? user_id)%Z (rows (alerts (db w))) in
  reliable env (clock w) 2 ->
  find (fun u => User.id u =? user_id)%Z (rows (users (db w))) = Some u ->
  (0 <= limit)%Z ->
  exists (listed older : list Alert.t) (w' : World),
    main.list_user_alerts env user_id limit w = (Ok listed, w') /\
    untouched w w' /\
    Permutation (listed ++ older) mine /\
    List.length listed = Nat.min (Z.to_nat limit) (List.length mine) /\
    newest_first listed /\
    (forall a b, In a listed -> In b older ->
                 (Alert.created_at b <= Alert.created_at a)%nat).
Proof.
  intros mine Hrel Huser Hlimit. unfold main.list_user_alerts.
  erewrite bind_ok by (apply get_user_ok; exact (reliable_head _ _ _ Hrel)).
  apply reliable_tail in Hrel. rewrite Huser.
  unfold crud.get_alerts_for_user.
  erewrite bind_ok by (apply query_ok; exact (reliable_head _ _ _ Hrel)).
  change (db (tick w)) with (db w). fold mine.
  destruct (newest_limited limit mine (tick (tick w)) Hlimit)
    as (Hrun & Hperm & Hlen & Hsorted & Hcut).
  eexists. eexists. eexists. split; [exact Hrun|].
  split; [repeat split|].
  split; [exact Hperm|]. split; [exact Hlen|]. split; [exact Hsorted|exact Hcut].
Qed.

Lemma list_user_alerts_newest_witness :
  exists (listed older : list Alert.t) (w' : World),
    main.list_user_alerts calm 1 2 world_alerts = (Ok listed, w') /\
    untouched world_alerts w' /\
    Permutation (listed ++ older)
      (filter (fun a => Alert.user_id a =? 1)%Z (rows (alerts (db world_alerts)))) /\
    List.length listed = 2%nat /\
    newest_first listed /\
    (forall a b, In a listed -> In b older ->
                 (Alert.created_at b <= Alert.created_at a)%nat).
Proof.
  exact (list_user_alerts_newest calm world_alerts 1 2 alice
           (fun k _ => eq_refl) eq_refl ltac:(lia)).
Defined.

(** X14. Listing all alerts with a limit that is not negative returns the
    newest alerts of the whole table, newest first, [limit] of them or all
    when there are fewer; nothing left out is newer than anything listed. *)
Theorem list_alerts_newest (env : Env) (w : World) (limit : Z) :
  let all := rows (alerts (db w)) in
  reliable env (clock w) 1 ->
  (0 <= limit)%Z ->
  exists (listed older : list Alert.t) (w' : World),
    main.list_alerts env limit w = (Ok listed, w') /\
    untouched w w' /\
    Permutation (listed ++ older) all /\
    List.length listed = Nat.min (Z.to_nat limit) (List.length all) /\
    newest_first listed /\
    (forall a b, In a listed -> In b older ->
                 (Alert.created_at b <= Alert.created_at a)%nat).
Proof.
  intros all Hrel Hlimit. unfold main.list_alerts, crud.get_alerts.
  erewrite bind_ok by (apply query_ok; exact (reliable_head _ _ _ Hrel)).
  fold all.
  destruct (newest_limited limit all (tick w) Hlimit)
    as (Hrun & Hperm & Hlen & Hsorted & Hcut).
  eexists. eexists. eexists. split; [exact Hrun|].
  split; [repeat split|].
  split; [exact Hperm|]. split; [exact Hlen|]. split; [exact Hsorted|exact Hcut].
Qed.

Lemma list_alerts_newest_witness :
  exists (listed older : list Alert.t) (w' : World),
    main.list_alerts calm 100 world_alerts = (Ok listed, w') /\
    untouched world_alerts w' /\
    Permutation (listed ++ older) (rows (alerts (db world_alerts))) /\
    List.length listed = 4%nat /\
    newest_first listed /\
    (forall a b, In a listed -> In b older ->
                 (Alert.created_at b <= Alert.created_at a)%nat).
Proof.
  exact (list_alerts_newest calm world_alerts 100
           (fun k _ => eq_refl) ltac:(lia)).
Defined.

(** ** The job, for every run *)

Lemma always_up_reliable (env : Env) (start len : nat) :
  always_up env -> reliable env start len.
Proof. intros H k _. apply H. Qed.

(** The four ways the job can go, by the first round trip that fails. *)
Lemma process_alert_task_cases (env : Env) (user_id : Z)
    (geofence_id : option Z) (message : string) (w : World) :
  let w1 := tick (alert_committed user_id geofence_id message w) in
  let job := celery_app.process_alert_task env user_id geofence_id message w in
  (raises env (clock w) = true /\
   job = (Raise OperationalError, record SessionClosed (tick w))) \/
  (raises env (clock w) = false /\ raises env (S (clock w)) = true /\
   job = (Raise OperationalError, record SessionClosed w1)) \/
  (raises env (clock w) = false /\ raises env (S (clock w)) = false /\
   raises env (S (S (clock w))) = true /\
   job = (Raise OperationalError, record SessionClosed (tick w1))) \/
  (raises env (clock w) = false /\ raises env (S (clock w)) = false /\
   raises env (S (S (clock w))) = false /\
   exists w2 : World,
     job = (Ok tt, record SessionClosed w2) /\
     db w2 = db w1 /\ broker w2 = broker w1 /\
     log w2 = log w1 ++ map (fun d => SendAttempt (Device.fcm_token d))
                          (filter (fun v => Device.user_id v =? user_id)%Z
                                  (rows (devices (db w))))).
Proof.
  intros w1 job. subst job. unfold celery_app.process_alert_task.
  pose proof (create_alert_run env user_id geofence_id message w) as Hrun.
  destruct (raises env (clock w)) eqn:F0.
  { left. split; [reflexivity|]. apply try_finally_close. apply bind_raise. exact Hrun. }
  right. destruct (raises env (S (clock w))) eqn:F1.
  { left. split; [reflexivity|]. split; [reflexivity|].
    apply try_finally_close. apply bind_raise. exact Hrun. }
  right. fold w1 in Hrun.
  change (S (S (clock w))) with (clock w1).
  destruct (raises env (clock w1)) eqn:F2.
  { left. repeat (split; [reflexivity|]).
    apply try_finally_close. erewrite bind_ok by exact Hrun.
    apply bind_raise. unfold crud.get_devices_for_user, Session.query.
    apply bind_raise. apply round_trip_raise. exact F2. }
  right. repeat (split; [reflexivity|]).
  destruct (notify_all_devices env
              (filter (fun v => Device.user_id v =? user_id)%Z
                      (rows (devices (db w))))
              "Geofence Alert" message
              (Some [("alert_id", Alert.id (new_alert user_id geofence_id message w));
                     ("user_id", user_id);
                     ("geofence_id", celery_app.or_0 geofence_id)])
              (tick w1))
    as (w2 & Hloop & Hdb & Hbroker & Hlog).
  exists w2. split.
  - apply try_finally_close. erewrite bind_ok by exact Hrun.
    erewrite bind_ok by (apply get_devices_for_user_ok; exact F2).
    exact Hloop.
  - split; [exact Hdb|]. split; [exact Hbroker|exact Hlog].
Qed.

(** X15. Whatever fails, the job changes nothing but [alerts], where it adds
    at most its one row; it publishes nothing; and it always closes its
    session, as its last action. *)
Theorem job_adds_at_most_one_alert_and_closes
    (env : Env) (user_id : Z) (geofence_id : option Z) (message : string)
    (w : World) :
  let w' := snd (celery_app.process_alert_task env user_id geofence_id message w) in
  users (db w') = users (db w) /\ geofences (db w') = geofences (db w) /\
  user_locations (db w') = user_locations (db w) /\
  devices (db w') = devices (db w) /\
  broker w' = broker w /\
  (rows (alerts (db w')) = rows (alerts (db w)) \/
   rows (alerts (db w'))
   = rows (alerts (db w)) ++ [new_alert user_id geofence_id message w]) /\
  (exists earlier : list event, log w' = earlier ++ [SessionClosed]).
Proof.
  destruct (process_alert_task_cases env user_id geofence_id message w)
    as [(_ & ->)|[(_ & _ & ->)|[(_ & _ & _ & ->)|(_ & _ & _ & w2 & -> & Hdb & Hbroker & _)]]];
    cbv zeta; simpl.
  - repeat split; [left; reflexivity|eexists; reflexivity].
  - repeat split; [right; reflexivity|eexists; reflexivity].
  - repeat split; [right; reflexivity|eexists; reflexivity].
  - rewrite Hdb, Hbroker. simpl.
    repeat split; [right; reflexivity|eexists; reflexivity].
Qed.

(** X16. When the query for the devices fails, the job fails with that
    error although its alert row is already written, and no send is
    attempted. *)
Theorem job_fails_when_devices_cannot_be_fetched
    (env : Env) (user_id : Z) (geofence_id : option Z) (message : string)
    (w : World) :
  raises env (clock w) = false ->
  raises env (S (clock w)) = false ->
  raises env (S (S (clock w))) = true ->
  exists w' : World,
    celery_app.process_alert_task env user_id geofence_id message w
    = (Raise OperationalError, w') /\
    rows (alerts (db w'))
    = rows (alerts (db w)) ++ [new_alert user_id geofence_id message w] /\
    log w' = log w ++ [Committed T_alerts; SessionClosed].
Proof.
  intros F0 F1 F2.
  destruct (process_alert_task_cases env user_id geofence_id message w)
    as [(E & _)|[(_ & E & _)|[(_ & _ & _ & ->)|(_ & _ & E & _)]]];
    try congruence.
  eexists. split; [reflexivity|]. split; [reflexivity|].
  simpl. rewrite <- app_assoc. reflexivity.
Qed.

Lemma job_fails_when_devices_cannot_be_fetched_witness :
  exists w' : World,
    celery_app.process_alert_task devices_query_down 1 (Some 1%Z)
      "User is outside geofenced area" world3
    = (Raise OperationalError, w') /\
    rows (alerts (db w'))
    = [Alert.mk 1 1 (Some 1%Z) "User is outside geofenced area" 1] /\
    log w' = [Committed T_alerts; SessionClosed].
Proof.
  exact (job_fails_when_devices_cannot_be_fetched devices_query_down 1 (Some 1%Z)
           "User is outside geofenced area" world3 eq_refl eq_refl eq_refl).
Defined.

(** X17. A job delivered twice writes two alert rows, with consecutive ids
    and the same user, geofence and message: nothing deduplicates them. *)
Theorem job_delivered_twice_writes_two_alerts
    (env : Env) (user_id : Z) (geofence_id : option Z) (message : string)
    (w : World) :
  always_up env ->
  exists (a1 a2 : Alert.t) (w' : World),
    (celery_app.process_alert_task env user_id geofence_id message ;;
     celery_app.process_alert_task env user_id geofence_id message)%monad w
    = (Ok tt, w') /\
    rows (alerts (db w')) = rows (alerts (db w)) ++ [a1; a2] /\
    Alert.id a1 = next_id (alerts (db w)) /\
    Alert.id a2 = (Alert.id a1 + 1)%Z /\
    Alert.user_id a1 = user_id /\ Alert.user_id a2 = user_id /\
    Alert.geofence_id a1 = geofence_id /\ Alert.geofence_id a2 = geofence_id /\
    Alert.message a1 = message /\ Alert.message a2 = message.
Proof.
  intros Hup.
  destruct (process_alert_task_ok env user_id geofence_id message w
              (always_up_reliable env _ 3 Hup)) as (w1 & Hjob1 & Hdb1 & _).
  destruct (process_alert_task_ok env user_id geofence_id message w1
              (always_up_reliable env _ 3 Hup)) as (w2 & Hjob2 & Hdb2 & _).
  exists (new_alert user_id geofence_id message w),
         (new_alert user_id geofence_id message w1), w2.
  split; [erewrite bind_ok by exact Hjob1; exact Hjob2|].
  rewrite Hdb2. simpl. rewrite Hdb1. simpl. rewrite <- app_assoc.
  repeat split.
Qed.

Lemma job_delivered_twice_writes_two_alerts_witness :
  always_up calm /\
  exists (a1 a2 : Alert.t) (w' : World),
    (celery_app.process_alert_task calm 1 (Some 1%Z) "User is outside geofenced area" ;;
     celery_app.process_alert_task calm 1 (Some 1%Z) "User is outside geofenced area")%monad
      world3 = (Ok tt, w') /\
    rows (alerts (db w')) = rows (alerts (db world3)) ++ [a1; a2] /\
    Alert.id a1 = next_id (alerts (db world3)) /\
    Alert.id a2 = (Alert.id a1 + 1)%Z /\
    Alert.user_id a1 = 1%Z /\ Alert.user_id a2 = 1%Z /\
    Alert.geofence_id a1 = Some 1%Z /\ Alert.geofence_id a2 = Some 1%Z /\
    Alert.message a1 = "User is outside geofenced area" /\
    Alert.message a2 = "User is outside geofenced area".
Proof.
  assert (H : always_up calm) by (intros n; reflexivity).
  exact (conj H (job_delivered_twice_writes_two_alerts calm 1 (Some 1%Z)
                   "User is outside geofenced area" world3 H)).
Defined.

(** ** The upsert and the other users *)

Lemma unique_id_row (l : list UserLocation.t) (x e : UserLocation.t) :
  NoDup (map UserLocation.id l) -> In x l -> In e l ->
  UserLocation.id x = UserLocation.id e -> x = e.
Proof.
  induction l as [|y l IH]; simpl; intros Hnd Hx He Hid; [contradiction|].
  inversion Hnd as [|? ? Hnotin Hnd']; subst.
  destruct Hx as [<-|Hx], He as [<-|He].
  - reflexivity.
  - exfalso. apply Hnotin. rewrite Hid. apply in_map. exact He.
  - exfalso. apply Hnotin. rewrite <- Hid. apply in_map. exact Hx.
  - apply IH; assumption.
Qed.

Lemma map_id_on {A : Type} (f : A -> A) (l : list A) :
  (forall x, In x l -> f x = x) -> map f l = l.
Proof.
  induction l as [|x l IH]; simpl; intros H; [reflexivity|].
  rewrite (H x (or_introl eq_refl)), IH; [reflexivity|].
  intros y Hy. apply H. right. exact Hy.
Qed.

Lemma pending_location_others (location : LocationUpdate.t) (d : Db) (other : Z) :
  NoDup (map UserLocation.id (rows (user_locations d))) ->
  other <> LocationUpdate.user_id location ->
  filter (fun r => UserLocation.user_id r =? other)%Z
         (rows (user_locations
                  (fst (crud.pending_location
                          (existing_location (LocationUpdate.user_id location) d)
                          location d))))
  = filter (fun r => UserLocation.user_id r =? other)%Z (rows (user_locations d)).
Proof.
  intros Hnd Hother.
  destruct (existing_location (LocationUpdate.user_id location) d) as [e|] eqn:E;
    simpl.
  - apply existing_location_in in E. destruct E as [He Hu].
    unfold crud.update_lat_lon. rewrite filter_map_stable.
    + apply map_id_on. intros x Hx. apply filter_In in Hx. destruct Hx as [Hx Hxu].
      apply Z.eqb_eq in Hxu.
      destruct (UserLocation.id x =? UserLocation.id e)%Z eqn:Eid; [|reflexivity].
      apply Z.eqb_eq in Eid.
      pose proof (unique_id_row _ x e Hnd Hx He Eid) as ->. congruence.
    + intros x. destruct (UserLocation.id x =? UserLocation.id e)%Z; reflexivity.
  - rewrite filter_app. simpl.
    assert (Ene : (LocationUpdate.user_id location =? other)%Z = false)
      by (apply Z.eqb_neq; congruence).
    rewrite Ene. apply app_nil_r.
Qed.

(** X18. With unique row ids, a location update for one user leaves the
    location rows of every other user exactly as they were, whatever the
    storage and the broker do. *)
Theorem update_location_leaves_other_users
    (env : Env) (location : LocationUpdate.t) (w : World) (other : Z) :
  NoDup (map UserLocation.id (rows (user_locations (db w)))) ->
  other <> LocationUpdate.user_id location ->
  filter (fun r => UserLocation.user_id r =? other)%Z
         (rows (user_locations (db (snd (main.update_location env location w)))))
  = filter (fun r => UserLocation.user_id r =? other)%Z
           (rows (user_locations (db w))).
Proof.
  intros Hnd Hother.
  set (P := fun w1 w2 : World =>
              filter (fun r => UserLocation.user_id r =? other)%Z
                     (rows (user_locations (db w2)))
              = filter (fun r => UserLocation.user_id r =? other)%Z
                       (rows (user_locations (db w1)))).
  change (keeps P (main.update_location env location) w).
  assert (R : forall w0, P w0 w0) by (intros w0; reflexivity).
  assert (T : forall w1 w2 w3, P w1 w2 -> P w2 w3 -> P w1 w3).
  { unfold P. intros w1 w2 w3 H12 H23. rewrite H23. exact H12. }
  assert (K : forall w0, P w0 (tick w0)) by (intros w0; reflexivity).
  unfold main.update_location.
  apply (keeps_bind _ T); [apply keeps_get_user; exact K|].
  intros [u|] w1 Hq; [|apply keeps_raise; exact R].
  apply query_inv in Hq. destruct Hq as (_ & _ & ->).
  apply (keeps_bind _ T).
  { apply (keeps_upsert_user_location _ R T env K).
    unfold P. simpl. apply pending_location_others; assumption. }
  intros _ w2 _.
  apply (keeps_bind _ T); [apply keeps_get_user_geofences; exact K|].
  intros [|gf rest] w3 _; [apply keeps_raise; exact R|].
  apply (keeps_bind _ T); [apply keeps_lift; exact R|].
  intros distance w4 _.
  apply (keeps_bind _ T); [|intros; apply keeps_ret; exact R].
  destruct (negb _); [|apply keeps_ret; exact R].
  unfold celery_app.delay.
  apply (keeps_bind _ T); [apply keeps_round_trip; exact K|].
  intros _ w5 _. reflexivity.
Qed.

Lemma update_location_leaves_other_users_witness :
  filter (fun r => UserLocation.user_id r =? 2)%Z
         (rows (user_locations
                  (db (snd (main.update_location calm
                              (LocationUpdate.mk 1 11 11) world_located)))))
  = [UserLocation.mk 2 2 48 2].
Proof.
  assert (Hnd : NoDup (map UserLocation.id (rows (user_locations (db world_located))))).
  { simpl. repeat constructor; simpl; intuition discriminate. }
  assert (Hother : 2%Z <> LocationUpdate.user_id (LocationUpdate.mk 1 11 11))
    by discriminate.
  exact (update_location_leaves_other_users calm (LocationUpdate.mk 1 11 11)
           world_located 2 Hnd Hother).
Defined.

(** X19. An error from the upsert does not tell whether the location was
    stored.  When the query or the commit fails nothing is stored; when only
    the refresh after the commit fails the call raises all the same, and the
    location is stored. *)
Theorem upsert_failure_modes
    (env : Env) (location : LocationUpdate.t) (w : World) :
  let stored := fst (crud.pending_location
                       (existing_location (LocationUpdate.user_id location) (db w))
                       location (db w)) in
  (raises env (clock w) = true \/
   (raises env (clock w) = false /\ raises env (S (clock w)) = true) ->
   exists w' : World,
     crud.upsert_user_location env location w = (Raise OperationalError, w') /\
     db w' = db w) /\
  (raises env (clock w) = false -> raises env (S (clock w)) = false ->
   raises env (S (S (clock w))) = true ->
   exists w' : World,
     crud.upsert_user_location env location w = (Raise OperationalError, w') /\
     db w' = stored).
Proof.
  intros stored. subst stored.
  unfold crud.upsert_user_location, Session.query, Session.commit,
    Session.refresh, bind, Session.round_trip, ret.
  split.
  - intros [F0|[F0 F1]]; rewrite F0.
    + eexists. split; reflexivity.
    + simpl. rewrite F1. eexists. split; reflexivity.
  - intros F0 F1 F2. rewrite F0. simpl. rewrite F1. simpl.
    fold (existing_location (LocationUpdate.user_id location) (db w)).
    destruct (crud.pending_location _ location (db w)) as [d row] eqn:E.
    simpl. rewrite F2. eexists. split; reflexivity.
Qed.

Lemma upsert_failure_modes_witness :
  exists w' : World,
    crud.upsert_user_location third_round_trip_fails
      (LocationUpdate.mk 1 11 11) world_located = (Raise OperationalError, w') /\
    rows (user_locations (db w'))
    = [UserLocation.mk 1 1 11 11; UserLocation.mk 2 2 48 2].
Proof.
  destruct (proj2 (upsert_failure_modes third_round_trip_fails
                     (LocationUpdate.mk 1 11 11) world_located)
                  eq_refl eq_refl eq_refl) as (w' & Hrun & Hdb).
  exists w'. split; [exact Hrun|]. rewrite Hdb. reflexivity.
Defined.

(** ** Each write keeps the data consistent *)














(** ** Every handler and the job keep the data consistent *)





Section Consistency.
Variable env : Env.








End Consistency.



(** ** Invariants of the running system *)





(** X22. Two upserts in a row for the same user, with the same or with
    different coordinates, leave one row for that user, carrying the
    coordinates of the second; the second upsert adds no row. *)
Theorem two_upserts_leave_one_row
    (env : Env) (w : World) (first second : LocationUpdate.t) :
  let mine := fun r => (UserLocation.user_id r =? LocationUpdate.user_id first)%Z in
  LocationUpdate.user_id second = LocationUpdate.user_id first ->
  reliable env (clock w) 6 ->
  (List.length (filter mine (rows (user_locations (db w)))) <= 1)%nat ->
  exists (row : UserLocation.t) (w' : World),
    (crud.upsert_user_location env first ;;
     crud.upsert_user_location env second)%monad w = (Ok row, w') /\
    filter mine (rows (user_locations (db w'))) = [row] /\
    UserLocation.lat row = LocationUpdate.lat second /\
    UserLocation.lon row = LocationUpdate.lon second /\
    List.length (rows (user_locations (db w')))
    = List.length (rows (user_locations (db (after_upsert first w)))).
Proof.
  exact (upsert_twice_one_row env w first second).
Qed.

Lemma two_upserts_leave_one_row_witness :
  exists (row : UserLocation.t) (w' : World),
    (crud.upsert_user_location calm at_home ;;
     crud.upsert_user_location calm at_home)%monad world1 = (Ok row, w') /\
    filter (fun r => (UserLocation.user_id r =? 1)%Z)
           (rows (user_locations (db w'))) = [row] /\
    UserLocation.lat row = 10%R /\
    UserLocation.lon row = 10%R /\
    List.length (rows (user_locations (db w'))) = 1%nat.
Proof.
  exact (two_upserts_leave_one_row calm world1 at_home at_home eq_refl
           (fun k _ => eq_refl) ltac:(simpl; lia)).
Defined.
